(** * VerifyEye front end: generation, detection and summarization screens

    A shallow embedding of the three page scripts ([generate.js] and the
    detection and summarization scripts) together with the part of the
    JavaScript runtime they rely on, followed by the properties the
    specification states about them.

    Layout:
    - [JS]: strings as UTF-16 code units, IEEE binary64 numbers, the
      conversions the scripts use ([trim], [substring], [Math.round],
      [Number::toString], [toFixed], [parseInt], [parseFloat], [ToNumber]),
      JSON values and property access;
    - [Dom]: elements, the effect monad (state, exceptions, trace of calls
      that leave the page) and the [try]/[catch]/[finally] combinators;
    - [Generate], [Detect], [Summarize]: one module per script, every
      function under the name it has in the source;
    - [Screens]: the three screens side by side, with the constants the
      specification gives for each flow;
    - [Samples]: pages and responses to run the scripts on;
    - the properties. *)

From Stdlib Require Import ZArith NArith List String Ascii SpecFloat DecimalString.
From stdpp Require Import base decidable option list gmap strings.

Set Warnings "-register-all".
Local Open Scope Z_scope.

(* ===================================================================== *)
(** * The JavaScript runtime used by the scripts                          *)
(* ===================================================================== *)

Module JS.

(** ** Strings: sequences of UTF-16 code units *)

Definition char16 := N.
Definition jsstring := list char16.

(** An ASCII literal of the source. *)
Definition lit (s : string) : jsstring :=
  map N_of_ascii (list_ascii_of_string s).

(** WhiteSpace and LineTerminator code points (ECMA-262, 12.2 and 12.3):
    the characters [String.prototype.trim] strips. *)
Definition isWhiteSpace (c : char16) : bool :=
  match c with
  | 9 | 10 | 11 | 12 | 13 | 32 | 160 | 5760
  | 8192 | 8193 | 8194 | 8195 | 8196 | 8197 | 8198 | 8199 | 8200 | 8201 | 8202
  | 8232 | 8233 | 8239 | 8287 | 12288 | 65279 => true
  | _ => false
  end%N.

Fixpoint trimStart (s : jsstring) : jsstring :=
  match s with
  | c :: r => if isWhiteSpace c then trimStart r else s
  | [] => []
  end.

Definition trimEnd (s : jsstring) : jsstring := rev (trimStart (rev s)).

(** [s.trim()] *)
Definition trim (s : jsstring) : jsstring := trimEnd (trimStart s).

(** [s.substring(0, n)] for a non-negative integer [n]. *)
Definition substring0 (n : nat) (s : jsstring) : jsstring := take n s.

(** [!s] for a string: the empty string is the only falsy one. *)
Definition isEmpty (s : jsstring) : bool :=
  match s with [] => true | _ => false end.

Fixpoint jsstring_eqb (a b : jsstring) : bool :=
  match a, b with
  | [], [] => true
  | x :: a', y :: b' => N.eqb x y && jsstring_eqb a' b'
  | _, _ => false
  end.

(** Decimal digits of a natural number, ["0"] for zero. *)
Definition decimal (n : N) : jsstring :=
  lit (NilZero.string_of_uint (N.to_uint n)).

(** ** Numbers: IEEE 754 binary64 *)

Definition number := spec_float.

Definition NaN : number := S754_nan.

(** The double nearest to an integer (ties to even). *)
Definition Number_of_Z (z : Z) : number := binary_normalize 53 1024 z 0 false.

(** The double nearest to the rational [p / q] with [0 <= p] and [0 < q],
    carrying the sign [neg]. *)
Definition Number_of_Q (neg : bool) (p q : Z) : number :=
  if p =? 0 then S754_zero neg
  else let '(m, e, l) := SFdiv_core_binary 53 1024 p 0 q 0 in
       binary_round_aux 53 1024 neg m e l.

(** [x * y] *)
Definition mul (x y : number) : number := SFmul 53 1024 x y.

(** [x < y] *)
Definition lt (x y : number) : bool := SFltb x y.

(** The exact value of a finite positive double [m * 2^e] as a fraction. *)
Definition fraction (m : positive) (e : Z) : Z * Z :=
  if 0 <=? e then (Z.pos m * 2 ^ e, 1) else (Z.pos m, 2 ^ (- e)).

(** [floor (x + 1/2)] for the finite double [(-1)^s * m * 2^e]. *)
Definition round_half_up (s : bool) (m : positive) (e : Z) : Z :=
  let '(p, q) := fraction m e in
  let p := if s then - p else p in
  (2 * p + q) / (2 * q).

(** [Math.round(x)]: the integral number closest to [x], the one towards
    +Infinity on a tie; [-0] for [x] in [[-0.5, 0)] and for [-0]. *)
Definition Math_round (x : number) : number :=
  match x with
  | S754_finite s m e =>
      if 0 <=? e then x
      else let r := round_half_up s m e in
           if r =? 0 then S754_zero s else Number_of_Z r
  | _ => x
  end.

(** [x / 10^k] as a fraction, for a fraction [p / q]. *)
Definition scale10 (p q k : Z) : Z * Z :=
  if 0 <=? k then (p, q * 10 ^ k) else (p * 10 ^ (- k), q).

(** The least [n >= from] with [p / q < 10^n], searched over [fuel] steps. *)
Fixpoint magnitude (fuel : nat) (p q from : Z) : Z :=
  match fuel with
  | O => from
  | S fuel' =>
      let '(a, b) := scale10 p q from in
      if a <? b then from else magnitude fuel' p q (from + 1)
  end.

(** A lower bound for the [n] with [10^(n-1) <= p / q < 10^n], from the
    lengths in bits: [2^b < p / q] for [b] as below, and [0.30102 <
    log10 2 < 0.30103]. *)
Definition magnitude_from (p q : Z) : Z :=
  let b := Z.log2 p - Z.log2 q - 1 in
  (b * (if 0 <=? b then 30102 else 30103)) / 100000.

(** The double denoted by the decimal [s * 10^k], [0 < s]. *)
Definition Number_of_decimal (neg : bool) (s k : Z) : number :=
  if 0 <=? k then Number_of_Q neg (s * 10 ^ k) 1
  else Number_of_Q neg s (10 ^ (- k)).

Definition number_eqb (x y : number) : bool :=
  match x, y with
  | S754_finite s m e, S754_finite s' m' e' =>
      Bool.eqb s s' && Pos.eqb m m' && Z.eqb e e'
  | S754_zero s, S754_zero s' => Bool.eqb s s'
  | S754_infinity s, S754_infinity s' => Bool.eqb s s'
  | S754_nan, S754_nan => true
  | _, _ => false
  end.

(** One round of the search of Number::toString (ECMA-262, 6.1.6.1.20,
    step 5) at a fixed number of digits [k]: the [k]-digit [s] with
    [s * 10^(n-k)] reading back as [x = p / q], the one nearest to [x]
    if there are two. *)
Definition digits_at (x : number) (p q n k : Z) : option (Z * Z) :=
  let '(a, b) := scale10 p q (n - k) in
  let lo := a / b in
  let hi := lo + 1 in
  let ok s := (10 ^ (k - 1) <=? s) && (s <=? 10 ^ k)
              && number_eqb (Number_of_decimal false s (n - k)) x in
  let pick s := if s =? 10 ^ k then Some (n + 1, 10 ^ (k - 1)) else Some (n, s) in
  match ok lo, ok hi with
  | true, false => pick lo
  | false, true => pick hi
  | false, false => None
  | true, true =>
      let dlo := a - lo * b in
      let dhi := hi * b - a in
      if dlo <? dhi then pick lo
      else if dhi <? dlo then pick hi
      else if Z.even lo then pick lo else pick hi
  end.

(** The least [k] from [k] on for which [digits_at] succeeds: [(n, k, s)]. *)
Fixpoint shortest (fuel : nat) (x : number) (p q n k : Z) : Z * Z * Z :=
  match fuel with
  | O => (n, k, fst (scale10 p q (n - k)) / snd (scale10 p q (n - k)))
  | S fuel' =>
      match digits_at x p q n k with
      | Some (n', s) => (n', k, s)
      | None => shortest fuel' x p q n (k + 1)
      end
  end.

Definition zeros (n : Z) : jsstring := repeat 48%N (Z.to_nat n).

(** Steps 6 to 10 of Number::toString: the layout of the digits. *)
Definition layout (n k s : Z) : jsstring :=
  let ds := decimal (Z.to_N s) in
  if (k <=? n) && (n <=? 21) then ds ++ zeros (n - k)
  else if (0 <? n) && (n <=? 21) then
    take (Z.to_nat n) ds ++ lit "." ++ drop (Z.to_nat n) ds
  else if (-6 <? n) && (n <=? 0) then lit "0." ++ zeros (- n) ++ ds
  else
    let e := n - 1 in
    let ex := lit (if e <? 0 then "-" else "+") ++ decimal (Z.to_N (Z.abs e)) in
    if k =? 1 then ds ++ lit "e" ++ ex
    else take 1 ds ++ lit "." ++ drop 1 ds ++ lit "e" ++ ex.

(** Number::toString(x) in radix 10. *)
Definition Number_toString (x : number) : jsstring :=
  match x with
  | S754_nan => lit "NaN"
  | S754_zero _ => lit "0"
  | S754_infinity s => lit (if s then "-Infinity" else "Infinity")
  | S754_finite s m e =>
      let '(p, q) := fraction m e in
      let n := magnitude 8 p q (magnitude_from p q) in
      let '(n', k, d) := shortest 17 (S754_finite false m e) p q n 1 in
      lit (if s then "-" else "") ++ layout n' k d
  end.

(** [x.toFixed(f)] for a number [x] and [0 <= f <= 100]
    (ECMA-262, 21.1.3.3). *)
Definition Number_toFixed (f : Z) (x : number) : jsstring :=
  match x with
  | S754_finite s m e =>
      let '(p, q) := fraction m e in
      if 10 ^ 21 * q <=? p then Number_toString x
      else
        let n := (2 * p * 10 ^ f + q) / (2 * q) in
        let ds := if n =? 0 then lit "0" else decimal (Z.to_N n) in
        let ds := if f =? 0 then ds
                  else
                    let k := Z.of_nat (length ds) in
                    let ds := if k <=? f then zeros (f + 1 - k) ++ ds else ds in
                    let k := Z.of_nat (length ds) in
                    take (Z.to_nat (k - f)) ds ++ lit "." ++ drop (Z.to_nat (k - f)) ds in
        lit (if s then "-" else "") ++ ds
  | S754_zero _ =>
      if f =? 0 then lit "0" else lit "0." ++ zeros f
  | _ => Number_toString x
  end.

(** ** Numeric literals in strings *)

(** The value of a digit in radix [r], if [c] is one. *)
Definition digit_value (r : Z) (c : char16) : option Z :=
  let c := Z.of_N c in
  let v := if (48 <=? c) && (c <=? 57) then c - 48
           else if (97 <=? c) && (c <=? 122) then c - 87
           else if (65 <=? c) && (c <=? 90) then c - 55
           else r in
  if v <? r then Some v else None.

(** The longest prefix of radix-[r] digits: its value (from [acc]), its
    length and what follows it. *)
Fixpoint digits (r : Z) (acc : Z) (len : Z) (s : jsstring) : Z * Z * jsstring :=
  match s with
  | c :: s' =>
      match digit_value r c with
      | Some v => digits r (acc * r + v) (len + 1) s'
      | None => (acc, len, s)
      end
  | [] => (acc, len, [])
  end.

Fixpoint strip_prefix (p s : jsstring) : option jsstring :=
  match p, s with
  | [], _ => Some s
  | a :: p', b :: s' => if N.eqb a b then strip_prefix p' s' else None
  | _ :: _, [] => None
  end.

(** An optional sign: whether it is [-], and the rest. *)
Definition sign (s : jsstring) : bool * jsstring :=
  match s with
  | 45%N :: r => (true, r)
  | 43%N :: r => (false, r)
  | _ => (false, s)
  end.

(** An exponent part [e], [E] with optional sign and at least one digit. *)
Definition exponent (s : jsstring) : Z * jsstring :=
  match s with
  | (101 | 69)%N :: r =>
      let '(neg, r') := sign r in
      let '(v, len, rest) := digits 10 0 0 r' in
      if len =? 0 then (0, s) else ((if neg then - v else v), rest)
  | _ => (0, s)
  end.

(** The longest prefix that is a StrDecimalLiteral (ECMA-262, 7.1.4.1):
    its Number value and the rest of the string. *)
Definition StrDecimalLiteral (s : jsstring) : option (number * jsstring) :=
  let '(neg, s1) := sign s in
  match strip_prefix (lit "Infinity") s1 with
  | Some rest => Some (S754_infinity neg, rest)
  | None =>
      let '(ip, ilen, s2) := digits 10 0 0 s1 in
      let '(m, flen, s3) :=
        match s2 with
        | 46%N :: r =>
            let '(m, flen, r') := digits 10 ip 0 r in
            if (ilen =? 0) && (flen =? 0) then (ip, 0, s2) else (m, flen, r')
        | _ => (ip, 0, s2)
        end in
      if (ilen =? 0) && (flen =? 0) then None
      else
        let '(ex, rest) := exponent s3 in
        Some ((if m =? 0 then S754_zero neg
               else Number_of_decimal neg m (ex - flen)), rest)
  end.

(** [0x], [0o] and [0b] literals, which take no sign. *)
Definition NonDecimalIntegerLiteral (s : jsstring) : option number :=
  let lit_in r body :=
    let '(v, len, rest) := digits r 0 0 body in
    if (0 <? len) && isEmpty rest then Some (Number_of_Z v) else None in
  match s with
  | 48%N :: (120 | 88)%N :: body => lit_in 16 body
  | 48%N :: (111 | 79)%N :: body => lit_in 8 body
  | 48%N :: (98 | 66)%N :: body => lit_in 2 body
  | _ => None
  end.

(** StringToNumber (ECMA-262, 7.1.4.1.1). *)
Definition StringToNumber (s : jsstring) : number :=
  let t := trim s in
  if isEmpty t then S754_zero false
  else match NonDecimalIntegerLiteral t with
       | Some x => x
       | None =>
           match StrDecimalLiteral t with
           | Some (x, []) => x
           | _ => NaN
           end
       end.

(** [parseFloat(s)] *)
Definition parseFloat (s : jsstring) : number :=
  match StrDecimalLiteral (trimStart s) with
  | Some (x, _) => x
  | None => NaN
  end.

(** [parseInt(s)] with no radix argument. *)
Definition parseInt (s : jsstring) : number :=
  let '(neg, s1) := sign (trimStart s) in
  let '(r, s2) :=
    match s1 with
    | 48%N :: (120 | 88)%N :: body => (16, body)
    | _ => (10, s1)
    end in
  let '(v, len, _) := digits r 0 0 s2 in
  if len =? 0 then NaN
  else if v =? 0 then S754_zero neg
  else Number_of_Z (if neg then - v else v).

(** ** Values *)

(** The values a parsed JSON document is made of, and [undefined], which
    reading an absent property gives.  An object lists its properties with
    their names. *)
Inductive jsvalue :=
| VUndefined
| VNull
| VBool (b : bool)
| VNumber (x : number)
| VString (s : jsstring)
| VArray (items : list jsvalue)
| VObject (props : list (jsstring * jsvalue)).

(** What a [throw] carries. *)
Inductive exn :=
| Error (message : jsstring)
| TypeError (message : jsstring)
| ReferenceError (message : jsstring)
| SyntaxError (message : jsstring)
| Rejection (reason : jsvalue).

(** ToString (ECMA-262, 7.1.17); arrays join their elements with commas,
    writing nothing for [null] and [undefined]. *)
Fixpoint ToString (v : jsvalue) : jsstring :=
  match v with
  | VUndefined => lit "undefined"
  | VNull => lit "null"
  | VBool b => lit (if b then "true" else "false")
  | VNumber x => Number_toString x
  | VString s => s
  | VArray items =>
      let item v := match v with
                    | VUndefined | VNull => []
                    | _ => ToString v
                    end in
      match items with
      | [] => []
      | v :: rest =>
          item v ++ (fix more (l : list jsvalue) : jsstring :=
                       match l with
                       | [] => []
                       | w :: l' => lit "," ++ item w ++ more l'
                       end) rest
      end
  | VObject _ => lit "[object Object]"
  end.

(** ToNumber (ECMA-262, 7.1.4). *)
Definition ToNumber (v : jsvalue) : number :=
  match v with
  | VUndefined => NaN
  | VNull => S754_zero false
  | VBool b => if b then Number_of_Z 1 else S754_zero false
  | VNumber x => x
  | VString s => StringToNumber s
  | VArray _ | VObject _ => StringToNumber (ToString v)
  end.

(** ToBoolean (ECMA-262, 7.1.2). *)
Definition ToBoolean (v : jsvalue) : bool :=
  match v with
  | VUndefined | VNull => false
  | VBool b => b
  | VNumber (S754_zero _ | S754_nan) => false
  | VNumber _ => true
  | VString s => negb (isEmpty s)
  | VArray _ | VObject _ => true
  end.

Fixpoint lookup_prop (k : jsstring) (props : list (jsstring * jsvalue)) : jsvalue :=
  match props with
  | [] => VUndefined
  | (k', v) :: rest => if jsstring_eqb k k' then v else lookup_prop k rest
  end.

(** [v.k] for a property name [k] that no prototype defines: a
    [TypeError] on [null] and [undefined], the property or [undefined]
    otherwise. *)
Definition get (v : jsvalue) (k : string) : exn + jsvalue :=
  match v with
  | VUndefined | VNull =>
      inl (TypeError (lit "Cannot read properties of " ++ ToString v))
  | VObject props => inr (lookup_prop (lit k) props)
  | _ => inr VUndefined
  end.

(** [v.toFixed(2)]: only numbers have the method. *)
Definition toFixed2 (v : jsvalue) : exn + jsstring :=
  match v with
  | VNumber x => inr (Number_toFixed 2 x)
  | VUndefined | VNull =>
      inl (TypeError (lit "Cannot read properties of " ++ ToString v))
  | _ => inl (TypeError (lit "toFixed is not a function"))
  end.

(** ** JSON.stringify *)

Definition hex_digit (n : N) : char16 :=
  (if n <? 10 then 48 + n else 87 + n)%N.

(** [\uXXXX] with lower-case digits. *)
Definition unicode_escape (c : char16) : jsstring :=
  lit "\u" ++ [hex_digit (c / 4096 mod 16); hex_digit (c / 256 mod 16);
               hex_digit (c / 16 mod 16); hex_digit (c mod 16)]%N.

Definition isLeadingSurrogate (c : char16) : bool :=
  ((55296 <=? c) && (c <=? 56319))%N.
Definition isTrailingSurrogate (c : char16) : bool :=
  ((56320 <=? c) && (c <=? 57343))%N.

Definition quote_unit (c : char16) : jsstring :=
  match c with
  | 8 => lit "\b" | 9 => lit "\t" | 10 => lit "\n" | 12 => lit "\f"
  | 13 => lit "\r" | 34 => [92; 34] | 92 => [92; 92]
  | _ => if c <? 32 then unicode_escape c else [c]
  end%N.

Fixpoint quote_body (s : jsstring) : jsstring :=
  match s with
  | [] => []
  | c :: r =>
      if isLeadingSurrogate c then
        match r with
        | d :: r' =>
            if isTrailingSurrogate d then c :: d :: quote_body r'
            else unicode_escape c ++ quote_body r
        | [] => unicode_escape c
        end
      else if isTrailingSurrogate c then unicode_escape c ++ quote_body r
      else quote_unit c ++ quote_body r
  end.

(** QuoteJSONString (ECMA-262, 25.5.2.3). *)
Definition QuoteJSONString (s : jsstring) : jsstring :=
  [34%N] ++ quote_body s ++ [34%N].

(** SerializeJSONProperty without replacer, indentation or [toJSON]:
    [None] stands for [undefined]. *)
Fixpoint JSON_stringify (v : jsvalue) : option jsstring :=
  match v with
  | VUndefined => None
  | VNull => Some (lit "null")
  | VBool b => Some (lit (if b then "true" else "false"))
  | VNumber x =>
      Some match x with
           | S754_nan | S754_infinity _ => lit "null"
           | _ => Number_toString x
           end
  | VString s => Some (QuoteJSONString s)
  | VArray items =>
      let item v := default (lit "null") (JSON_stringify v) in
      Some (lit "[" ++
            match items with
            | [] => []
            | v :: rest =>
                item v ++ (fix more (l : list jsvalue) : jsstring :=
                             match l with
                             | [] => []
                             | w :: l' => lit "," ++ item w ++ more l'
                             end) rest
            end ++ lit "]")
  | VObject props =>
      Some (lit "{" ++
            (fix members (first : bool) (l : list (jsstring * jsvalue)) : jsstring :=
               match l with
               | [] => []
               | (k, w) :: l' =>
                   match JSON_stringify w with
                   | None => members first l'
                   | Some j =>
                       (if first then [] else lit ",") ++
                       QuoteJSONString k ++ lit ":" ++ j ++ members false l'
                   end
               end) true props ++ lit "}")
  end.

End JS.

(* ===================================================================== *)
(** * The page: elements, effects and control flow                        *)
(* ===================================================================== *)

Module Dom.
Import JS.

(** The properties of an element that the scripts read or write.  The
    [style_] fields hold the inline declarations; [classList] is the set
    of class tokens. *)
Record element := Element {
  value : jsstring;
  textContent : jsstring;
  classList : gset string;
  disabled : bool;
  style_display : jsstring;
  style_color : jsstring;
  style_background : jsstring;
  style_width : jsstring
}.

Definition set_value (s : jsstring) (el : element) : element :=
  Element s (textContent el) (classList el) (disabled el) (style_display el)
          (style_color el) (style_background el) (style_width el).

(** A text area hands out its value with newlines normalised: CR LF and
    a lone CR read back as LF. *)
Fixpoint normalizeNewlines (s : jsstring) : jsstring :=
  match s with
  | 13%N :: r =>
      10%N :: match r with
              | 10%N :: r' => normalizeNewlines r'
              | _ => normalizeNewlines r
              end
  | c :: r => c :: normalizeNewlines r
  | [] => []
  end.

(** [el.value = s] on a text area, as [el.value] then reads. *)
Definition set_textarea_value (s : jsstring) (el : element) : element :=
  set_value (normalizeNewlines s) el.

(** The [textContent] setter takes a nullable string: [null] and
    [undefined] both clear the text, anything else goes through ToString. *)
Definition set_textContent (v : jsvalue) (el : element) : element :=
  let s := match v with
           | VUndefined | VNull => []
           | _ => ToString v
           end in
  Element (value el) s (classList el) (disabled el) (style_display el)
          (style_color el) (style_background el) (style_width el).

Definition classList_add (c : string) (el : element) : element :=
  Element (value el) (textContent el) ({[ c ]} ∪ classList el) (disabled el)
          (style_display el) (style_color el) (style_background el)
          (style_width el).

Definition classList_remove (c : string) (el : element) : element :=
  Element (value el) (textContent el) (classList el ∖ {[ c ]}) (disabled el)
          (style_display el) (style_color el) (style_background el)
          (style_width el).

Definition set_disabled (b : bool) (el : element) : element :=
  Element (value el) (textContent el) (classList el) b (style_display el)
          (style_color el) (style_background el) (style_width el).

Definition set_style_display (s : jsstring) (el : element) : element :=
  Element (value el) (textContent el) (classList el) (disabled el) s
          (style_color el) (style_background el) (style_width el).

Definition set_style_color (s : jsstring) (el : element) : element :=
  Element (value el) (textContent el) (classList el) (disabled el)
          (style_display el) s (style_background el) (style_width el).

Definition set_style_background (s : jsstring) (el : element) : element :=
  Element (value el) (textContent el) (classList el) (disabled el)
          (style_display el) (style_color el) s (style_width el).

(** [el.style.width = n + '%'] for a number [n]: the declaration is
    dropped, and the old one kept, unless the text is a percentage that
    [width] accepts, that is unless [n] is finite and not negative. *)
Definition set_style_width_percent (n : number) (el : element) : element :=
  match n with
  | S754_zero _ | S754_finite false _ _ =>
      Element (value el) (textContent el) (classList el) (disabled el)
              (style_display el) (style_color el) (style_background el)
              (Number_toString n ++ lit "%")
  | _ => el
  end.

(** ** What leaves the page *)

Record request := Request {
  method : jsstring;
  headers : list (jsstring * jsstring);
  body : option jsstring
}.

(** [firebase.firestore.FieldValue]: the only sentinel used is the one
    that asks the server to fill in the time of the write. *)
Inductive FieldValue := serverTimestamp.

(** The document handed to [add]. *)
Record audit_record := AuditRecord {
  type : jsstring;
  input : jsstring;
  output : jsvalue;
  timestamp : FieldValue
}.

(** A file chosen in a file input: its MIME type and the text a reader
    would decode from it. *)
Record file := File {
  file_type : jsstring;
  file_text : jsstring
}.

Inductive event :=
| Fetch (url : jsstring) (init : request)
| FirestoreAdd (collection : jsstring) (doc : audit_record)
| ConsoleError (label : option jsstring) (error : exn)
| ClipboardWriteText (text : jsstring)
| ReadAsText (f : file).

(** ** What the page is told *)

(** The promises a listener waits for are settled by its arguments, and
    a listener is run to its end in one piece: nothing else runs on the
    page while it waits. *)

(** How the promise of [response.json()] settles. *)
Inductive json_outcome :=
| JsonParsed (data : jsvalue)
| JsonRejected (error : exn).

(** How the promise of [fetch] settles: rejected, or fulfilled with a
    response, of which the scripts use [ok] and [json()]. *)
Inductive fetch_outcome :=
| FetchRejected (error : exn)
| Response (ok : bool) (json : json_outcome).

(** How a write goes.  [add] returns a promise, which is fulfilled or
    rejected; or it throws at the call, as it does on a document it
    refuses; or a call made on the way to it throws and [add] is not
    reached: [firebase.firestore()], [collection('results')] or
    [firebase.firestore.FieldValue.serverTimestamp()]. *)
Inductive add_outcome :=
| AddFulfilled
| AddRejected (error : exn)
| AddThrows (error : exn)
| StoreThrows (error : exn).



(** The document store as the scripts see it: whether
    [typeof firebase !== 'undefined' && firebase.firestore] holds, whether
    a global binding [db] for the store exists (two of the scripts use
    one without declaring it), and how a write goes. *)
Record firebase := Firebase {
  sdk_loaded : bool;
  db_global : bool;
  add_settles : add_outcome
}.

(** How the promise of [navigator.clipboard.writeText] settles, on a page
    that has the Clipboard API. *)
Inductive clipboard_outcome :=
| ClipboardFulfilled
| ClipboardRejected.

(** ** State and effects *)

Section Effects.
Context {Id : Type} `{EqDecision Id}.

(** [document.getElementById]: the elements of the page by id. *)
Definition document := Id -> element.

(** The page while a script runs: the elements, the calls made so far
    (oldest first) and the pending timers with the milliseconds left;
    each script passes a single closure to [setTimeout], the one resetting
    its copy button. *)
Record world := World {
  doc : document;
  trace : list event;
  timers : list nat
}.

(** A computation: it ends normally or by a [throw], and leaves a world. *)
Definition M (A : Type) : Type := world -> (exn + A) * world.

Definition ret {A} (a : A) : M A := fun w => (inr a, w).

Definition bind {A B} (m : M A) (k : A -> M B) : M B :=
  fun w => match m w with
           | (inr a, w') => k a w'
           | (inl e, w') => (inl e, w')
           end.

Definition throw {A} (e : exn) : M A := fun w => (inl e, w).

(** Lifting a result of the runtime. *)
Definition lift {A} (r : exn + A) : M A :=
  match r with inl e => throw e | inr a => ret a end.

(** [try { body } catch (error) { handler error } finally { fin }] *)
Definition try_catch_finally (body : M unit) (handler : exn -> M unit)
    (fin : M unit) : M unit :=
  fun w =>
    let '(r, w1) := match body w with
                    | (inl e, w') => handler e w'
                    | ok => ok
                    end in
    match fin w1 with
    | (inr _, w2) => (r, w2)
    | thrown => thrown
    end.

Definition update (i : Id) (f : element -> element) (d : document) : document :=
  fun j => if decide (i = j) then f (d j) else d j.

(** Reading and writing a property of the element [i]. *)
Definition read {A} (i : Id) (prop : element -> A) : M A :=
  fun w => (inr (prop (doc w i)), w).

Definition write (i : Id) (f : element -> element) : M unit :=
  fun w => (inr tt, World (update i f (doc w)) (trace w) (timers w)).

Definition emit (e : event) : M unit :=
  fun w => (inr tt, World (doc w) (trace w ++ [e]) (timers w)).

(** [setTimeout(reset, ms)] *)
Definition setTimeout (ms : nat) : M unit :=
  fun w => (inr tt, World (doc w) (trace w) (timers w ++ [ms])).

(** [console.error(label, error)] *)
Definition console_error (label : option jsstring) (e : exn) : M unit :=
  emit (ConsoleError label e).

(** [await fetch(url, init)] *)
Definition fetch (url : jsstring) (init : request) (net : fetch_outcome)
    : M (bool * json_outcome) :=
  bind (emit (Fetch url init)) (fun _ =>
    match net with
    | FetchRejected e => throw e
    | Response ok json => ret (ok, json)
    end).

(** [await response.json()] *)
Definition json (j : json_outcome) : M jsvalue :=
  match j with
  | JsonParsed data => ret data
  | JsonRejected e => throw e
  end.

(** The world after [ms] milliseconds in which nothing but timers runs:
    the timers that are due run [reset], the others are [ms] closer. *)
Definition elapse (reset : M unit) (ms : nat) (w : world) : world :=
  let due := filter (fun t => t <=? ms)%nat (timers w) in
  let later := map (fun t => t - ms)%nat (filter (fun t => negb (t <=? ms)%nat) (timers w)) in
  fold_left (fun w _ => snd (reset w)) due
            (World (doc w) (trace w) later).

End Effects.

Arguments document : clear implicits.
Arguments world : clear implicits.
Arguments M : clear implicits.

#[global] Instance M_ret {Id} : MRet (M Id) := @ret Id.
#[global] Instance M_bind {Id} : MBind (M Id) := fun A B k m => bind m k.

End Dom.

(* ===================================================================== *)
(** * generate.js: the generation screen                                  *)
(* ===================================================================== *)

Module Generate.
Import JS Dom.

(** The elements the script looks up, by id. *)
Inductive id :=
| promptText | toneSelect | lengthSelect | tempSlider | tempValue
| generateBtn | regenerateBtn | loading | results | errorMsg
| generatedText | wordCount | tokensUsed | copyBtn.

#[global] Instance id_eq_dec : EqDecision id.
Proof. solve_decision. Defined.

Definition endpoint : jsstring := lit "YOUR_CLOUD_FUNCTION_URL/generateText".

(** The listener of [tempSlider]'s [input] event. *)
Definition tempSlider_input : M id unit :=
  v ← read tempSlider value;
  write tempValue (set_textContent (VString v)).

Definition showError (message : jsstring) : M id unit :=
  write errorMsg (set_textContent (VString message));;
  write errorMsg (classList_add "show").

Definition hideError : M id unit :=
  write errorMsg (classList_remove "show").

Definition displayResults (data : jsvalue) : M id unit :=
  v ← lift (get data "generatedText");
  write generatedText (set_textContent v);;
  v ← lift (get data "wordCount");
  write wordCount (set_textContent v);;
  v ← lift (get data "tokensUsed");
  write tokensUsed (set_textContent v);;
  write results (classList_add "show").

(** [db] is a free identifier of this script: reading it throws a
    [ReferenceError] unless the page has bound it.  Nothing here catches
    what [collection], [serverTimestamp] or [add] throw at the call: it
    goes to the caller.  The rejection handler passed to [catch] only
    writes to the console; nothing else of the script runs between the
    write and it, so it is run in place. *)
Definition saveToFirestore (fb : firebase) (prompt : jsstring) (result : jsvalue)
    : M id unit :=
  if sdk_loaded fb then
    if db_global fb then
      let add :=
        emit (FirestoreAdd (lit "results")
                (AuditRecord (lit "generation") prompt result serverTimestamp)) in
      match add_settles fb with
      | StoreThrows e => throw e
      | AddThrows e => add;; throw e
      | AddRejected e => add;; console_error None e
      | AddFulfilled => add;; mret tt
      end
    else throw (ReferenceError (lit "db is not defined"))
  else mret tt.

(** The listener of the [click] events of [generateBtn] and
    [regenerateBtn].  [net] tells how the request settles and [fb] what
    the document store does. *)
Definition performGeneration (net : fetch_outcome) (fb : firebase) : M id unit :=
  raw ← read promptText value;
  let prompt := trim raw in
  if isEmpty prompt then showError (lit "Please enter a prompt")
  else if (length prompt <? 10)%nat then
    showError (lit "Prompt must be at least 10 characters")
  else
    hideError;;
    write results (classList_remove "show");;
    write loading (set_style_display (lit "block"));;
    write generateBtn (set_disabled true);;
    write regenerateBtn (set_disabled true);;
    try_catch_finally
      (tone ← read toneSelect value;
       len ← read lengthSelect value;
       temp ← read tempSlider value;
       response ← fetch endpoint
         (Request (lit "POST") [(lit "Content-Type", lit "application/json")]
            (JSON_stringify
               (VObject [(lit "prompt", VString prompt);
                         (lit "tone", VString tone);
                         (lit "maxLength", VNumber (parseInt len));
                         (lit "temperature", VNumber (parseFloat temp))])))
         net;
       if negb (fst response) then throw (Error (lit "Generation failed"))
       else
         data ← json (snd response);
         displayResults data;;
         saveToFirestore fb prompt data)
      (fun error =>
         console_error (Some (lit "Error:")) error;;
         showError (lit "Failed to generate text. Please try again."))
      (write loading (set_style_display (lit "none"));;
       write generateBtn (set_disabled false);;
       write regenerateBtn (set_disabled false)).

(** The closure handed to [setTimeout] by the copy button. *)
Definition copyBtn_reset : M id unit :=
  write copyBtn (set_textContent (VString (lit "Copy Text")));;
  write copyBtn (classList_remove "copied").

(** The listener of [copyBtn]'s [click] event, with the reaction to the
    clipboard promise run in place. *)
Definition copyBtn_click (clip : clipboard_outcome) : M id unit :=
  text ← read generatedText textContent;
  emit (ClipboardWriteText text);;
  match clip with
  | ClipboardFulfilled =>
      write copyBtn (set_textContent (VString (10003%N :: lit " Copied!")));;
      write copyBtn (classList_add "copied");;
      setTimeout 2000
  | ClipboardRejected => mret tt
  end.

End Generate.

(* ===================================================================== *)
(** * The detection screen                                                *)
(* ===================================================================== *)

Module Detect.
Import JS Dom.

Inductive id :=
| detectText | charCount | detectBtn | fileUpload | loading | results
| errorMsg | confidenceValue | verdict | confidenceFill | analysisDetails
| copyBtn.

#[global] Instance id_eq_dec : EqDecision id.
Proof. solve_decision. Defined.

Definition endpoint : jsstring := lit "YOUR_CLOUD_FUNCTION_URL/detectAIText".

Definition nl : jsstring := [10%N].

(** U+1F916 and U+1F464 as surrogate pairs. *)
Definition robot : jsstring := [55358; 56598]%N.
Definition bust : jsstring := [55357; 56420]%N.

Definition green : jsstring := lit "#4ade80".
Definition yellow : jsstring := lit "#fbbf24".
Definition red : jsstring := lit "#ef4444".

Definition showError (message : jsstring) : M id unit :=
  write errorMsg (set_textContent (VString message));;
  write errorMsg (classList_add "show").

Definition hideError : M id unit :=
  write errorMsg (classList_remove "show").

(** Character counter: the listener of [detectText]'s [input] event. *)
Definition detectText_input : M id unit :=
  v ← read detectText value;
  let count := Number_of_Z (Z.of_nat (length v)) in
  write charCount (set_textContent (VNumber count)).

(** [reader.onload] *)
Definition reader_onload (result : jsstring) : M id unit :=
  write detectText (set_textarea_value result);;
  v ← read detectText value;
  write charCount (set_textContent (VNumber (Number_of_Z (Z.of_nat (length v))))).

(** File upload handler: the listener of [fileUpload]'s [change] event.
    [selected] is [e.target.files[0]], absent when no file is chosen;
    [loaded] tells whether the reader's [load] event comes, in which case
    [reader_onload] is run in place. *)
Definition fileUpload_change (selected : option file) (loaded : bool) : M id unit :=
  match selected with
  | Some f =>
      if jsstring_eqb (file_type f) (lit "text/plain") then
        emit (ReadAsText f);;
        if loaded then reader_onload (file_text f) else mret tt
      else showError (lit "Please upload a .txt file")
  | None => showError (lit "Please upload a .txt file")
  end.

(** The colour of the bar for a rounded confidence. *)
Definition bar_color (confidence : number) : jsstring :=
  if lt confidence (Number_of_Z 30) then green
  else if lt confidence (Number_of_Z 70) then yellow
  else red.

(** Display results function *)
Definition displayResults (data : jsvalue) : M id unit :=
  c ← lift (get data "confidence");
  let confidence := Math_round (ToNumber c) in
  v ← lift (get data "isAI");
  let isAI := ToBoolean v in
  write confidenceValue
    (set_textContent (VString (Number_toString confidence ++ lit "%")));;
  write verdict
    (set_textContent (VString (if isAI then robot ++ lit " AI Generated"
                               else bust ++ lit " Human Written")));;
  write verdict (set_style_color (if isAI then red else green));;
  write confidenceFill (set_style_width_percent confidence);;
  write confidenceFill
    (set_textContent (VString (Number_toString confidence ++ lit "%")));;
  write confidenceFill (set_style_background (bar_color confidence));;
  let details :=
    lit "Detection Confidence: " ++ Number_toString confidence ++ lit "%"
    ++ nl ++ nl in
  let details :=
    details ++ lit "Verdict: "
    ++ lit (if isAI then "This text appears to be AI-generated"
            else "This text appears to be human-written") ++ nl ++ nl in
  p ← lift (get data "perplexity");
  details ← (if ToBoolean p then
               score ← lift (toFixed2 p);
               mret (details ++ lit "Perplexity Score: " ++ score ++ nl)
             else mret details);
  b ← lift (get data "burstiness");
  details ← (if ToBoolean b then
               score ← lift (toFixed2 b);
               mret (details ++ lit "Burstiness Score: " ++ score ++ nl)
             else mret details);
  let details :=
    details ++ nl
    ++ lit "Note: This is a probabilistic analysis and may not be 100% accurate." in
  write analysisDetails (set_textContent (VString details));;
  write results (classList_add "show").

(** Save to Firestore.  This script binds [db] itself, to what
    [firebase.firestore()] returns.  What that call, [collection],
    [serverTimestamp] or [add] throw at the call is not caught here and
    goes to the caller; the handler passed to [catch] sees only a
    rejection of the promise. *)
Definition saveToFirestore (fb : firebase) (text : jsstring) (result : jsvalue)
    : M id unit :=
  if sdk_loaded fb then
    let add :=
      emit (FirestoreAdd (lit "results")
              (AuditRecord (lit "detection") (substring0 500 text) result
                           serverTimestamp)) in
    match add_settles fb with
    | StoreThrows e => throw e
    | AddThrows e => add;; throw e
    | AddRejected e =>
        add;; console_error (Some (lit "Error saving to Firestore:")) e
    | AddFulfilled => add;; mret tt
    end
  else mret tt.

(** Detect button handler: the listener of [detectBtn]'s [click] event. *)
Definition detectBtn_click (net : fetch_outcome) (fb : firebase) : M id unit :=
  raw ← read detectText value;
  let text := trim raw in
  if isEmpty text then showError (lit "Please enter some text to analyze")
  else if (length text <? 50)%nat then
    showError (lit "Text must be at least 50 characters long")
  else
    hideError;;
    write results (classList_remove "show");;
    write loading (set_style_display (lit "block"));;
    write detectBtn (set_disabled true);;
    try_catch_finally
      (response ← fetch endpoint
         (Request (lit "POST") [(lit "Content-Type", lit "application/json")]
            (JSON_stringify (VObject [(lit "text", VString text)])))
         net;
       if negb (fst response) then throw (Error (lit "Failed to analyze text"))
       else
         data ← json (snd response);
         displayResults data;;
         saveToFirestore fb text data)
      (fun error =>
         console_error (Some (lit "Error:")) error;;
         showError (lit "An error occurred while analyzing the text. Please try again."))
      (write loading (set_style_display (lit "none"));;
       write detectBtn (set_disabled false)).

Definition copyBtn_reset : M id unit :=
  write copyBtn (set_textContent (VString (lit "Copy Results")));;
  write copyBtn (classList_remove "copied").

(** Copy results button: the listener of [copyBtn]'s [click] event. *)
Definition copyBtn_click (clip : clipboard_outcome) : M id unit :=
  details ← read analysisDetails textContent;
  let resultText := lit "AI Detection Results" ++ nl ++ nl ++ details in
  emit (ClipboardWriteText resultText);;
  match clip with
  | ClipboardFulfilled =>
      write copyBtn (set_textContent (VString (10003%N :: lit " Copied!")));;
      write copyBtn (classList_add "copied");;
      setTimeout 2000
  | ClipboardRejected => mret tt
  end.

End Detect.

(* ===================================================================== *)
(** * The summarization screen                                            *)
(* ===================================================================== *)

Module Summarize.
Import JS Dom.

Inductive id :=
| summaryText | charCount | lengthRatio | formatType | summarizeBtn
| loading | results | errorMsg | summaryResult | originalWords
| summaryWords | compressionRatio | copyBtn.

#[global] Instance id_eq_dec : EqDecision id.
Proof. solve_decision. Defined.

Definition endpoint : jsstring := lit "YOUR_CLOUD_FUNCTION_URL/summarizeText".

Definition showError (message : jsstring) : M id unit :=
  write errorMsg (set_textContent (VString message));;
  write errorMsg (classList_add "show").

Definition hideError : M id unit :=
  write errorMsg (classList_remove "show").

(** The listener of [summaryText]'s [input] event. *)
Definition summaryText_input : M id unit :=
  v ← read summaryText value;
  write charCount (set_textContent (VNumber (Number_of_Z (Z.of_nat (length v))))).

Definition displayResults (data : jsvalue) : M id unit :=
  v ← lift (get data "summary");
  write summaryResult (set_textContent v);;
  v ← lift (get data "originalWords");
  write originalWords (set_textContent v);;
  v ← lift (get data "summaryWords");
  write summaryWords (set_textContent v);;
  v ← lift (get data "compressionRatio");
  write compressionRatio
    (set_textContent
       (VString (Number_toString (Math_round (mul (ToNumber v) (Number_of_Z 100)))
                 ++ lit "%")));;
  write results (classList_add "show").

(** [db] is a free identifier of this script, as in [generate.js], and
    as there what the calls throw goes to the caller. *)
Definition saveToFirestore (fb : firebase) (text : jsstring) (result : jsvalue)
    : M id unit :=
  if sdk_loaded fb then
    if db_global fb then
      let add :=
        emit (FirestoreAdd (lit "results")
                (AuditRecord (lit "summary") (substring0 500 text) result
                             serverTimestamp)) in
      match add_settles fb with
      | StoreThrows e => throw e
      | AddThrows e => add;; throw e
      | AddRejected e => add;; console_error None e
      | AddFulfilled => add;; mret tt
      end
    else throw (ReferenceError (lit "db is not defined"))
  else mret tt.

(** The listener of [summarizeBtn]'s [click] event. *)
Definition summarizeBtn_click (net : fetch_outcome) (fb : firebase) : M id unit :=
  raw ← read summaryText value;
  let text := trim raw in
  if isEmpty text then showError (lit "Please enter text to summarize")
  else if (length text <? 100)%nat then
    showError (lit "Text must be at least 100 characters for meaningful summarization")
  else
    hideError;;
    write results (classList_remove "show");;
    write loading (set_style_display (lit "block"));;
    write summarizeBtn (set_disabled true);;
    try_catch_finally
      (ratio ← read lengthRatio value;
       format ← read formatType value;
       response ← fetch endpoint
         (Request (lit "POST") [(lit "Content-Type", lit "application/json")]
            (JSON_stringify
               (VObject [(lit "text", VString text);
                         (lit "ratio", VNumber (parseFloat ratio));
                         (lit "format", VString format)])))
         net;
       if negb (fst response) then throw (Error (lit "Summarization failed"))
       else
         data ← json (snd response);
         displayResults data;;
         saveToFirestore fb text data)
      (fun error =>
         console_error (Some (lit "Error:")) error;;
         showError (lit "Failed to generate summary. Please try again."))
      (write loading (set_style_display (lit "none"));;
       write summarizeBtn (set_disabled false)).

Definition copyBtn_reset : M id unit :=
  write copyBtn (set_textContent (VString (lit "Copy Summary")));;
  write copyBtn (classList_remove "copied").

(** The listener of [copyBtn]'s [click] event. *)
Definition copyBtn_click (clip : clipboard_outcome) : M id unit :=
  text ← read summaryResult textContent;
  emit (ClipboardWriteText text);;
  match clip with
  | ClipboardFulfilled =>
      write copyBtn (set_textContent (VString (10003%N :: lit " Copied!")));;
      write copyBtn (classList_add "copied");;
      setTimeout 2000
  | ClipboardRejected => mret tt
  end.

End Summarize.

(* ===================================================================== *)
(** * The three screens side by side                                      *)
(* ===================================================================== *)

(** The scripts repeat one pattern.  [Screens] names, for each flow, the
    elements and listeners that play the same part, so that a property of
    "every flow" is stated once. *)
Module Screens.
Import JS Dom.

Inductive flow := generation | detection | summarization.

Definition Id (f : flow) : Type :=
  match f with
  | generation => Generate.id
  | detection => Detect.id
  | summarization => Summarize.id
  end.

#[global] Instance Id_eq_dec (f : flow) : EqDecision (Id f).
Proof. destruct f; apply _. Defined.

(** The text field a submission reads. *)
Definition textInput (f : flow) : Id f :=
  match f with
  | generation => Generate.promptText
  | detection => Detect.detectText
  | summarization => Summarize.summaryText
  end.

Definition errorMsg (f : flow) : Id f :=
  match f with
  | generation => Generate.errorMsg
  | detection => Detect.errorMsg
  | summarization => Summarize.errorMsg
  end.

(** The container of the result elements. *)
Definition results (f : flow) : Id f :=
  match f with
  | generation => Generate.results
  | detection => Detect.results
  | summarization => Summarize.results
  end.

Definition loading (f : flow) : Id f :=
  match f with
  | generation => Generate.loading
  | detection => Detect.loading
  | summarization => Summarize.loading
  end.

Definition copyBtn (f : flow) : Id f :=
  match f with
  | generation => Generate.copyBtn
  | detection => Detect.copyBtn
  | summarization => Summarize.copyBtn
  end.

(** The buttons that submit. *)
Definition buttons (f : flow) : list (Id f) :=
  match f with
  | generation => [Generate.generateBtn; Generate.regenerateBtn]
  | detection => [Detect.detectBtn]
  | summarization => [Summarize.summarizeBtn]
  end.

(** The elements [displayResults] fills in. *)
Definition outputs (f : flow) : list (Id f) :=
  match f with
  | generation =>
      [Generate.generatedText; Generate.wordCount; Generate.tokensUsed]
  | detection =>
      [Detect.confidenceValue; Detect.verdict; Detect.confidenceFill;
       Detect.analysisDetails]
  | summarization =>
      [Summarize.summaryResult; Summarize.originalWords;
       Summarize.summaryWords; Summarize.compressionRatio]
  end.

(** The listener of the submit button(s). *)
Definition submit (f : flow) : fetch_outcome -> firebase -> M (Id f) unit :=
  match f with
  | generation => Generate.performGeneration
  | detection => Detect.detectBtn_click
  | summarization => Summarize.summarizeBtn_click
  end.

Definition displayResults (f : flow) : jsvalue -> M (Id f) unit :=
  match f with
  | generation => Generate.displayResults
  | detection => Detect.displayResults
  | summarization => Summarize.displayResults
  end.

Definition copyBtn_click (f : flow) : clipboard_outcome -> M (Id f) unit :=
  match f with
  | generation => Generate.copyBtn_click
  | detection => Detect.copyBtn_click
  | summarization => Summarize.copyBtn_click
  end.

Definition copyBtn_reset (f : flow) : M (Id f) unit :=
  match f with
  | generation => Generate.copyBtn_reset
  | detection => Detect.copyBtn_reset
  | summarization => Summarize.copyBtn_reset
  end.

Definition endpoint (f : flow) : jsstring :=
  match f with
  | generation => Generate.endpoint
  | detection => Detect.endpoint
  | summarization => Summarize.endpoint
  end.

(** The minimum length the specification gives for each flow. *)
Definition minimum (f : flow) : nat :=
  match f with
  | generation => 10
  | detection => 50
  | summarization => 100
  end.

(** The messages of the two validation branches. *)
Definition validation_message (f : flow) (text : jsstring) : jsstring :=
  match f with
  | generation =>
      lit (if isEmpty text then "Please enter a prompt"
           else "Prompt must be at least 10 characters")
  | detection =>
      lit (if isEmpty text then "Please enter some text to analyze"
           else "Text must be at least 50 characters long")
  | summarization =>
      lit (if isEmpty text then "Please enter text to summarize"
           else "Text must be at least 100 characters for meaningful summarization")
  end.

(** The message of the [catch] block. *)
Definition generic_error (f : flow) : jsstring :=
  match f with
  | generation => lit "Failed to generate text. Please try again."
  | detection =>
      lit "An error occurred while analyzing the text. Please try again."
  | summarization => lit "Failed to generate summary. Please try again."
  end.

(** The [type] the specification gives to the audit record of a flow. *)
Definition record_type (f : flow) : jsstring :=
  match f with
  | generation => lit "generation"
  | detection => lit "detection"
  | summarization => lit "summary"
  end.

(** The [input] of the audit record for a submitted text. *)
Definition record_input (f : flow) (text : jsstring) : jsstring :=
  match f with
  | generation => text
  | detection | summarization => substring0 500 text
  end.

(** The name under which the request carries the text. *)
Definition text_field (f : flow) : jsstring :=
  match f with
  | generation => lit "prompt"
  | detection | summarization => lit "text"
  end.

(** The label the copy button gets back. *)
Definition idle_label (f : flow) : jsstring :=
  match f with
  | generation => lit "Copy Text"
  | detection => lit "Copy Results"
  | summarization => lit "Copy Summary"
  end.

(** The text of the element the copy button reads. *)
Definition result_text (f : flow) (d : document (Id f)) : jsstring :=
  match f return document (Id f) -> jsstring with
  | generation => fun d => textContent (d Generate.generatedText)
  | detection => fun d => textContent (d Detect.analysisDetails)
  | summarization => fun d => textContent (d Summarize.summaryResult)
  end d.

(** The first line the detection screen puts before its details. *)
Definition heading : jsstring :=
  lit "AI Detection Results" ++ Detect.nl ++ Detect.nl.

(** The text handed to the clipboard. *)
Definition copied_text (f : flow) (d : document (Id f)) : jsstring :=
  match f with
  | detection => heading
  | _ => []
  end ++ result_text f d.

(** The label of a copy button while it confirms the copy. *)
Definition copied_label : jsstring := 10003%N :: lit " Copied!".

(** What a reset makes of the copy button. *)
Definition reset_button (f : flow) (el : element) : element :=
  classList_remove "copied" (set_textContent (VString (idle_label f)) el).

(** The submitted text: the trimmed value of the input field. *)
Definition submitted (f : flow) (w : world (Id f)) : jsstring :=
  trim (value (doc w (textInput f))).


(** An optional numeric field. *)
Definition optional_number (v : jsvalue) : Prop :=
  match v with
  | VUndefined | VNumber _ => True
  | _ => False
  end.

(** A response of the documented shape: an object and, for detection,
    [perplexity] and [burstiness] numbers when they are there. *)
Definition well_formed (f : flow) (data : jsvalue) : Prop :=
  match data with
  | VObject props =>
      match f with
      | detection =>
          optional_number (lookup_prop (lit "perplexity") props) /\
          optional_number (lookup_prop (lit "burstiness") props)
      | _ => True
      end
  | _ => False
  end.


(** A number rounded to the nearest integer and followed by [%]. *)
Definition percent (x : number) : jsstring :=
  Number_toString (Math_round x) ++ lit "%".


(** The colour the specification gives to a rounded confidence [r]. *)
Definition band (r : Z) : jsstring :=
  if r <? 30 then Detect.green
  else if r <? 70 then Detect.yellow
  else Detect.red.

(** The number [x] is the integer [r]. *)
Definition integral (r : Z) (x : number) : Prop :=
  x = Number_of_Z r \/ (r = 0 /\ x = S754_zero true).

End Screens.

(** * Sample pages *)

Module Samples.
Import JS Dom.

Definition blank : element :=
  Element [] [] ∅ false [] [] [] [].

Definition page {Id} : document Id := fun _ => blank.

Definition fresh {Id} (d : document Id) : world Id := World d [] [].

(** A store that is there and accepts the write. *)
Definition store : firebase := Firebase true true AddFulfilled.

(** The generation screen with the prompt of the specification's example
    between spaces. *)
Definition gen_page : document Generate.id :=
  update Generate.promptText (set_value (lit "  Write a short poem "))
    (update Generate.toneSelect (set_value (lit "neutral"))
       (update Generate.lengthSelect (set_value (lit "100"))
          (update Generate.tempSlider (set_value (lit "0.7")) page))).

(** The same with a prompt too short once trimmed. *)
Definition gen_short : document Generate.id :=
  update Generate.promptText (set_value (lit "   a poem    ")) gen_page.

Definition gen_props : list (jsstring * jsvalue) :=
  [(lit "generatedText", VString (lit "Roses are red"));
   (lit "wordCount", VNumber (Number_of_Z 3));
   (lit "tokensUsed", VNumber (Number_of_Z 12))].

Definition gen_data : jsvalue := VObject gen_props.

(** The generation screen showing an earlier result. *)
Definition gen_shown : document Generate.id :=
  update Generate.results (classList_add "show")
    (update Generate.generatedText (set_textContent (VString (lit "Roses are red")))
       gen_page).

(** A text of [n] letters. *)
Definition letters (n : nat) : jsstring := repeat 97%N n.

(** The detection screen with 501 letters in the text area. *)
Definition det_page : document Detect.id :=
  update Detect.detectText (set_value (letters 501))
    (update Detect.analysisDetails
       (set_textContent (VString (lit "Detection Confidence: 88%"))) page).

(** confidence 87.6, flagged, perplexity 12.345 *)
Definition det_props : list (jsstring * jsvalue) :=
  [(lit "confidence", VNumber (Number_of_Q false 876 10));
   (lit "isAI", VBool true);
   (lit "perplexity", VNumber (Number_of_Q false 12345 1000))].

Definition det_data : jsvalue := VObject det_props.

Definition sum_page : document Summarize.id :=
  update Summarize.summaryText (set_value (letters 120))
    (update Summarize.lengthRatio (set_value (lit "0.3"))
       (update Summarize.formatType (set_value (lit "paragraph")) page)).

Definition sum_props : list (jsstring * jsvalue) :=
  [(lit "summary", VString (lit "aaa"));
   (lit "originalWords", VNumber (Number_of_Z 1));
   (lit "summaryWords", VNumber (Number_of_Z 1));
   (lit "compressionRatio", VNumber (Number_of_Q false 285 1000))].

Definition sum_data : jsvalue := VObject sum_props.

(** A summarization response that carries an array inside an array,
    and the error of the store refusing it as a document. *)
Definition nested_props : list (jsstring * jsvalue) :=
  sum_props ++ [(lit "sentences", VArray [VArray [VString (lit "aaa")]])].

Definition nested_data : jsvalue := VObject nested_props.

Definition invalid_data : exn :=
  Error (lit "Function addDoc() called with invalid data. Nested arrays are not supported").

Definition plain_file : file := File (lit "text/plain") (lit "hello").
Definition pdf_file : file := File (lit "application/pdf") (lit "%PDF-1.7").

End Samples.

(* ===================================================================== *)
(** * Further vocabulary for the properties                             *)
(* ===================================================================== *)

Module Behaviour.
Import JS Dom Screens.

(** The message of the error a listener throws itself on a status that
    is not a success. *)
Definition status_error (f : flow) : jsstring :=
  match f with
  | generation => lit "Generation failed"
  | detection => lit "Failed to analyze text"
  | summarization => lit "Summarization failed"
  end.

(** The exception that reaches the [catch] block before any response has
    been parsed, if the request settles that way. *)
Definition failure (f : flow) (net : fetch_outcome) : option exn :=
  match net with
  | FetchRejected e => Some e
  | Response false _ => Some (Error (status_error f))
  | Response true (JsonRejected e) => Some e
  | Response true (JsonParsed _) => None
  end.

(** A text with no white space at either end. *)
Definition clean (t : jsstring) : Prop :=
  (forall c, head t = Some c -> isWhiteSpace c = false) /\
  (forall c, last t = Some c -> isWhiteSpace c = false).

(** The event is an HTTP request. *)
Definition is_fetch (e : event) : bool :=
  match e with Fetch _ _ => true | _ => false end.

(** The event is a write to the document store. *)
Definition is_add (e : event) : bool :=
  match e with FirestoreAdd _ _ => true | _ => false end.

(** The object a submission serialises into the body of its request,
    from the page as it is at the click. *)
Definition payload (f : flow) (d : document (Id f)) : jsvalue :=
  match f return document (Id f) -> jsvalue with
  | generation => fun d =>
      VObject [(lit "prompt", VString (trim (value (d Generate.promptText))));
               (lit "tone", VString (value (d Generate.toneSelect)));
               (lit "maxLength",
                VNumber (parseInt (value (d Generate.lengthSelect))));
               (lit "temperature",
                VNumber (parseFloat (value (d Generate.tempSlider))))]
  | detection => fun d =>
      VObject [(lit "text", VString (trim (value (d Detect.detectText))))]
  | summarization => fun d =>
      VObject [(lit "text", VString (trim (value (d Summarize.summaryText))));
               (lit "ratio",
                VNumber (parseFloat (value (d Summarize.lengthRatio))));
               (lit "format", VString (value (d Summarize.formatType)))]
  end d.

(** [null] and [undefined], on which reading a property throws. *)
Definition nullish (v : jsvalue) : Prop :=
  match v with
  | VUndefined | VNull => True
  | _ => False
  end.



(** The elements a submission may write to. *)
Definition touched (f : flow) : list (Id f) :=
  errorMsg f :: results f :: loading f :: buttons f ++ outputs f.

(** The counter shows the length of the text in the text area. *)
Definition counted (length_of : jsstring) (counter : element) : Prop :=
  textContent counter
  = Number_toString (Number_of_Z (Z.of_nat (length length_of))).

Definition detect_counted (d : document Detect.id) : Prop :=
  counted (value (d Detect.detectText)) (d Detect.charCount).

Definition summary_counted (d : document Summarize.id) : Prop :=
  counted (value (d Summarize.summaryText)) (d Summarize.charCount).

End Behaviour.

(** * More sample pages *)

Module MoreSamples.
Import JS Dom Samples.


(** A rejected request. *)
Definition offline : fetch_outcome :=
  FetchRejected (TypeError (lit "Failed to fetch")).

(** A plain text file of sixty letters after two spaces. *)
Definition long_file : file := File (lit "text/plain") (lit "  " ++ letters 60).

End MoreSamples.

(* ===================================================================== *)
(** * Properties                                                          *)
(* ===================================================================== *)

Import JS Dom Screens Samples.

(** ** Tactics *)

Ltac unfold_monad :=
  unfold Generate.showError, Generate.hideError, Detect.showError,
    Detect.hideError, Summarize.showError, Summarize.hideError;
  unfold mbind, M_bind, mret, M_ret.

(** Runs the straight-line part of a listener. *)
Ltac run_prelude :=
  unfold_monad;
  cbn [bind ret throw lift read write emit setTimeout console_error
       fst snd doc trace timers negb].

(** Runs through [fetch], [json] and [try]/[catch]/[finally] as well. *)
Ltac run :=
  unfold_monad;
  cbn [bind ret throw lift read write emit setTimeout console_error fetch
       json try_catch_finally fst snd doc trace timers negb].

Ltac unfold_submit :=
  unfold submitted, submit, textInput, minimum, Generate.performGeneration,
    Detect.detectBtn_click, Summarize.summarizeBtn_click in *;
  cbn [Id] in *.

(** Elements a chain of updates leaves alone or reaches. *)
Ltac frame := unfold update; repeat case_decide; try congruence; try done.

(** ** Running the model *)

Example trim_strips_every_white_space :
  trim ([160; 65279]%N ++ lit "  a b " ++ [8232; 10; 9]%N) = lit "a b".
Proof. reflexivity. Qed.

Example Math_round_on_ties :
  Math_round (Number_of_Q false 5 2) = Number_of_Z 3 /\
  Math_round (Number_of_Q true 5 2) = Number_of_Z (-2) /\
  Math_round (Number_of_Q true 2 5) = S754_zero true /\
  Math_round (Number_of_Q false 876 10) = Number_of_Z 88.
Proof. by vm_compute. Qed.

Example Number_toString_samples :
  Number_toString (Number_of_Q false 1 10) = lit "0.1" /\
  Number_toString (Number_of_Z (10 ^ 21)) = lit "1e+21" /\
  Number_toString (Number_of_Q true 3 2) = lit "-1.5" /\
  Number_toString (Number_of_Q false 1 10000000) = lit "1e-7" /\
  Number_toString (mul (Number_of_Q false 435 100) (Number_of_Z 100))
  = lit "434.99999999999994".
Proof. by vm_compute. Qed.

Example toFixed_samples :
  Number_toFixed 2 (Number_of_Q false 12345 1000) = lit "12.35" /\
  Number_toFixed 2 (Number_of_Q false 1005 1000) = lit "1.00" /\
  Number_toFixed 2 (Number_of_Q false 1 8) = lit "0.13" /\
  Number_toFixed 2 (Number_of_Z 7) = lit "7.00".
Proof. by vm_compute. Qed.

Example parsing_samples :
  parseInt (lit "100") = Number_of_Z 100 /\
  parseInt (lit " 12px") = Number_of_Z 12 /\
  parseInt (lit "") = NaN /\
  parseFloat (lit "0.7") = Number_of_Q false 7 10 /\
  parseFloat (lit "1e") = Number_of_Z 1 /\
  StringToNumber (lit " 85 ") = Number_of_Z 85 /\
  StringToNumber (lit "85%") = NaN.
Proof. by vm_compute. Qed.

(** The product with 100 is a binary64 product: 0.285 gives 28 and
    0.015 gives 2. *)
Example compression_ratio_samples :
  percent (mul (Number_of_Q false 285 1000) (Number_of_Z 100)) = lit "28%" /\
  percent (mul (Number_of_Q false 15 1000) (Number_of_Z 100)) = lit "2%" /\
  percent (mul (Number_of_Q false 1 2) (Number_of_Z 100)) = lit "50%".
Proof. by vm_compute. Qed.

(** The example of the specification: the request that leaves and what
    the page shows for the answer. *)
Example generation_run :
  let r := Generate.performGeneration (Response true (JsonParsed gen_data))
             store (fresh gen_page) in
  fst r = inr tt /\
  trace (snd r)
  = [Fetch (lit "YOUR_CLOUD_FUNCTION_URL/generateText")
       (Request (lit "POST") [(lit "Content-Type", lit "application/json")]
          (Some ([123; 34]%N ++ lit "prompt" ++ [34; 58; 34]%N
                 ++ lit "Write a short poem" ++ [34; 44; 34]%N ++ lit "tone"
                 ++ [34; 58; 34]%N ++ lit "neutral" ++ [34; 44; 34]%N
                 ++ lit "maxLength" ++ [34; 58]%N ++ lit "100,"
                 ++ [34]%N ++ lit "temperature" ++ [34; 58]%N ++ lit "0.7}")));
     FirestoreAdd (lit "results")
       (AuditRecord (lit "generation") (lit "Write a short poem") gen_data
          serverTimestamp)] /\
  textContent (doc (snd r) Generate.generatedText) = lit "Roses are red" /\
  textContent (doc (snd r) Generate.wordCount) = lit "3" /\
  textContent (doc (snd r) Generate.tokensUsed) = lit "12".
Proof. by vm_compute. Qed.

(** A response without the documented fields: blank texts in generation,
    [NaN%] on a red bar in detection. *)
Example empty_response_run :
  let g := Generate.performGeneration (Response true (JsonParsed (VObject [])))
             store (fresh gen_page) in
  let d := Detect.detectBtn_click (Response true (JsonParsed (VObject [])))
             store (fresh det_page) in
  textContent (doc (snd g) Generate.generatedText) = [] /\
  textContent (doc (snd d) Detect.confidenceValue) = lit "NaN%" /\
  style_background (doc (snd d) Detect.confidenceFill) = Detect.red.
Proof. by vm_compute. Qed.

(** ** The runtime *)

Lemma jsstring_eqb_eq (a b : jsstring) : jsstring_eqb a b = true <-> a = b.
Proof.
  revert b; induction a as [|x a IH]; intros [|y b]; simpl; split; try done.
  - intros [?%N.eqb_eq ?%IH]%andb_prop. by subst.
  - intros [= -> ->]. rewrite N.eqb_refl. simpl. by apply IH.
Qed.

Lemma isEmpty_length (t : jsstring) : isEmpty t = true -> length t = 0%nat.
Proof. by destruct t. Qed.

Lemma fraction_pos (m : positive) (e : Z) :
  0 < fst (fraction m e) /\ 0 < snd (fraction m e).
Proof.
  unfold fraction. destruct (0 <=? e) eqn:He; cbn [fst snd].
  - apply Z.leb_le in He. split; [|lia].
    apply Z.mul_pos_pos; [lia|]. by apply Z.pow_pos_nonneg.
  - apply Z.leb_gt in He. split; [lia|]. apply Z.pow_pos_nonneg; lia.
Qed.

(** [round_half_up] gives a nearest integer, the greater one on a tie:
    for the number [p / q], [r - 1/2 <= p / q < r + 1/2]. *)
Lemma round_half_up_nearest (s : bool) (m : positive) (e : Z) :
  let p := if s then - fst (fraction m e) else fst (fraction m e) in
  let q := snd (fraction m e) in
  let r := round_half_up s m e in
  2 * r * q - q <= 2 * p < 2 * r * q + q.
Proof.
  intros p q r. subst p q r. unfold round_half_up.
  destruct (fraction_pos m e) as [_ Hq].
  destruct (fraction m e) as [p q]; cbn [fst snd] in *.
  set (p' := if s then - p else p).
  pose proof (Z.div_mod (2 * p' + q) (2 * q) ltac:(lia)) as Hd.
  pose proof (Z.mod_pos_bound (2 * p' + q) (2 * q) ltac:(lia)) as Hm.
  lia.
Qed.

(** [Math.round] of a number with a fractional part is that integer. *)
Lemma Math_round_integral (s : bool) (m : positive) (e : Z) :
  e < 0 -> integral (round_half_up s m e) (Math_round (S754_finite s m e)).
Proof.
  intros He. unfold Math_round, integral.
  apply Z.leb_gt in He as ->.
  destruct (round_half_up s m e =? 0) eqn:Hr; [|by left].
  apply Z.eqb_eq in Hr as ->. destruct s; [by right|by left].
Qed.

(** The integers from 0 to 100 print as their decimal numerals and fall
    in the colour band the comparisons with 30 and 70 give. *)
Lemma small_integers (r : Z) :
  0 <= r <= 100 ->
  Number_toString (Number_of_Z r) = decimal (Z.to_N r) /\
  Detect.bar_color (Number_of_Z r) = band r.
Proof.
  intros Hr.
  assert (forallb
            (fun n => let r := Z.of_nat n in
               jsstring_eqb (Number_toString (Number_of_Z r)) (decimal (Z.to_N r))
               && jsstring_eqb (Detect.bar_color (Number_of_Z r)) (band r))
            (seq 0 101) = true) as H by (vm_compute; reflexivity).
  rewrite forallb_forall in H.
  specialize (H (Z.to_nat r)). rewrite in_seq in H. specialize (H ltac:(lia)).
  cbv zeta in H. rewrite Z2Nat.id in H by lia.
  apply andb_prop in H as [H1 H2]. by rewrite !jsstring_eqb_eq in *.
Qed.

(** A number that rounds to an integer from 0 to 100 shows as the
    decimal numeral of that integer followed by [%]. *)
Lemma percent_decimal (r : Z) (x : number) :
  integral r (Math_round x) -> 0 <= r <= 100 ->
  percent x = decimal (Z.to_N r) ++ lit "%".
Proof.
  intros [Hx|[-> Hx]] Hr; unfold percent; rewrite Hx; [|done].
  by rewrite (proj1 (small_integers r Hr)).
Qed.


(** ** Control flow *)

(** Whatever the body and the handler do, the world a
    [try]/[catch]/[finally] leaves is one the [finally] block has just
    left. *)
Lemma finally_runs_last {I} (P : world I -> Prop) body handler fin (w : world I) :
  (forall w1, P (snd (fin w1))) ->
  P (snd (try_catch_finally body handler fin w)).
Proof.
  intros H. unfold try_catch_finally.
  destruct (body w) as [[e|[]] w0]; [destruct (handler e w0) as [r w1]|];
    match goal with
    | |- context [fin ?w1] => specialize (H w1); destruct (fin w1) as [[?|?] ?]
    end; exact H.
Qed.

(** Entering the branch of a listener that follows a passed validation,
    from [H : minimum <= length text]. *)
Ltac valid H :=
  let E := fresh "E" in
  destruct (isEmpty _) eqn:E;
  [apply isEmpty_length in E; cbn in H; lia|];
  apply Nat.ltb_ge in H; rewrite H.

(** ** Elements *)

Lemma update_ne {I} `{EqDecision I} (i j : I) g (d : document I) :
  i <> j -> update i g d j = d j.
Proof. intros. unfold update. by case_decide. Qed.

Lemma update_eq {I} `{EqDecision I} (i : I) g (d : document I) :
  update i g d i = g (d i).
Proof. unfold update. by case_decide. Qed.

Lemma classList_add_in (c : string) (el : element) :
  c ∈ classList (classList_add c el).
Proof. cbn. apply elem_of_union_l. by apply elem_of_singleton. Qed.

Lemma classList_remove_out (c : string) (el : element) :
  c ∉ classList (classList_remove c el).
Proof. cbn. intros [_ Hc]%elem_of_difference. apply Hc. by apply elem_of_singleton. Qed.


(** ** What [displayResults] does *)

Ltac unfold_display :=
  unfold displayResults, Generate.displayResults, Detect.displayResults,
    Summarize.displayResults; cbn [Id].

(** The branches of the detection details. *)
Ltac dr_cases :=
  repeat (run_prelude;
          match goal with
          | |- context [if ToBoolean ?v then _ else _] => destruct (ToBoolean v)
          | |- context [toFixed2 ?v] => destruct (toFixed2 v)
          end);
  run_prelude.

(** Membership in a list written out. *)
Ltac in_list H :=
  repeat (apply elem_of_cons in H; destruct H as [H|H]);
  try (by apply elem_of_nil in H).

(** It makes no call and sets no timer. *)
Lemma displayResults_trace (f : flow) (data : jsvalue) (w : world (Id f)) :
  trace (snd (displayResults f data w)) = trace w /\
  timers (snd (displayResults f data w)) = timers w.
Proof.
  destruct f, data; unfold_display; cbn [get]; run_prelude; try done.
  dr_cases; done.
Qed.

(** It writes to the result elements and their container only. *)
Lemma displayResults_frame (f : flow) (data : jsvalue) (w : world (Id f)) i :
  i ∉ results f :: outputs f ->
  doc (snd (displayResults f data w)) i = doc w i.
Proof.
  intros Hi.
  destruct f, data; unfold_display; cbn [get]; run_prelude; try done.
  all: try dr_cases.
  all: cbn in Hi; repeat (apply not_elem_of_cons in Hi; destruct Hi as [? Hi]).
  all: by rewrite ?update_ne by congruence.
Qed.




Lemma display_shows (f : flow) (data : jsvalue) (w w' : world (Id f)) :
  displayResults f data w = (inr tt, w') ->
  "show" ∈ classList (doc w' (results f)).
Proof.
  destruct f, data; unfold_display; cbn [get results Id]; run_prelude; try done.
  all: try (intros [= <-]; cbn [doc]; rewrite update_eq; apply classList_add_in).
  all: dr_cases; try done.
  all: intros [= <-]; cbn [doc]; rewrite update_eq; apply classList_add_in.
Qed.




(** ** The success path *)

(** Splits on how [displayResults] ends on the success path, recording
    that it leaves the trace and the timers alone and what it leaves
    unwritten. *)
Ltac is_display dr :=
  lazymatch dr with
  | Generate.displayResults => idtac
  | Detect.displayResults => idtac
  | Summarize.displayResults => idtac
  end.

Ltac split_display fl :=
  unfold try_catch_finally; run;
  repeat match goal with
         | |- context [bind (?dr ?data) ?k ?W] =>
             is_display dr;
             change (bind (dr data) k W)
               with (match dr data W with
                     | (inr a, w') => k a w'
                     | (inl e, w') => (inl e, w')
                     end)
         end;
  match goal with
  | |- context [match ?dr ?data ?W with _ => _ end] =>
      is_display dr;
      let T := fresh "T" in
      let F := fresh "F" in
      let D := fresh "D" in
      pose proof (displayResults_trace fl data W) as T;
      pose proof (displayResults_frame fl data W) as F;
      cbn [displayResults Id results outputs] in T, F;
      destruct (dr data W) as [[?|[]] ?] eqn:D;
      cbn [fst snd doc trace timers] in T, F; destruct T as [? ?]; run
  end.

Ltac split_display_here :=
  match goal with
  | w : world Generate.id |- _ => split_display generation
  | w : world Detect.id |- _ => split_display detection
  | w : world Summarize.id |- _ => split_display summarization
  end.

(** Splits on what the document store does. *)
Ltac split_store fb :=
  unfold Generate.saveToFirestore, Detect.saveToFirestore,
    Summarize.saveToFirestore;
  destruct fb as [[] [] []]; cbn [sdk_loaded db_global add_settles]; run.


(** ** Validation *)

(** C1. In every flow, when the trimmed text is shorter than the flow's
    minimum (10, 50, 100), which includes the empty text, a click on the
    submit button ends normally having made no call at all, so no HTTP
    request; the error element carries the validation message and the
    class [show]; no other element changes. *)
Theorem validation_blocks_submission (f : flow) (net : fetch_outcome)
    (fb : firebase) (w : world (Id f)) :
  (length (submitted f w) < minimum f)%nat ->
  let r := submit f net fb w in
  fst r = inr tt /\
  trace (snd r) = trace w /\
  textContent (doc (snd r) (errorMsg f)) = validation_message f (submitted f w) /\
  "show" ∈ classList (doc (snd r) (errorMsg f)) /\
  forall i, i <> errorMsg f -> doc (snd r) i = doc w i.
Proof.
  intros H r. subst r.
  apply Nat.ltb_lt in H.
  destruct f; unfold errorMsg, validation_message; unfold_submit; run_prelude.
  all: destruct (isEmpty _) eqn:E; [|rewrite H]; run_prelude.
  all: repeat split; try done;
    try (by rewrite update_eq; apply classList_add_in).
  all: intros i Hi; frame.
Qed.

Lemma validation_blocks_submission_witness :
  (length (submitted generation (fresh gen_short)) < minimum generation)%nat /\
  let r := submit generation (Response true (JsonParsed gen_data)) store
             (fresh gen_short) in
  fst r = inr tt /\
  trace (snd r) = [] /\
  textContent (doc (snd r) Generate.errorMsg) =
    lit "Prompt must be at least 10 characters" /\
  "show" ∈ classList (doc (snd r) Generate.errorMsg) /\
  forall i, i <> Generate.errorMsg -> doc (snd r) i = gen_short i.
Proof.
  split; [vm_compute; lia|].
  apply (validation_blocks_submission generation
           (Response true (JsonParsed gen_data)) store (fresh gen_short)).
  vm_compute; lia.
Defined.

(** ** After a submission *)

(** C9. In every flow, whatever the request, the parsing of the response,
    the rendering and the document store do, a submission that passed
    validation ends with the loading indicator hidden and every submit
    button of the flow enabled: the [finally] block runs last. *)
Theorem submission_ends_idle (f : flow) (net : fetch_outcome) (fb : firebase)
    (w : world (Id f)) :
  (minimum f <= length (submitted f w))%nat ->
  let r := submit f net fb w in
  style_display (doc (snd r) (loading f)) = lit "none" /\
  forall b, b ∈ buttons f -> disabled (doc (snd r) b) = false.
Proof.
  intros H r; subst r.
  destruct f; unfold loading, buttons; unfold_submit; run_prelude; valid H;
    run_prelude.
  all: apply finally_runs_last; intros w1; run_prelude; split; [done|].
  all: intros b Hb; in_list Hb; by subst b.
Qed.

Lemma submission_ends_idle_witness :
  (minimum generation <= length (submitted generation (fresh gen_page)))%nat /\
  let r := submit generation (FetchRejected (TypeError (lit "Failed to fetch")))
             store (fresh gen_page) in
  style_display (doc (snd r) Generate.loading) = lit "none" /\
  forall b, b ∈ [Generate.generateBtn; Generate.regenerateBtn] ->
    disabled (doc (snd r) b) = false.
Proof.
  split; [vm_compute; lia|].
  apply (submission_ends_idle generation
           (FetchRejected (TypeError (lit "Failed to fetch"))) store
           (fresh gen_page)).
  vm_compute; lia.
Defined.

(** ** Responses that are not a success *)

(** C2 as stated fails. The results container was showing an earlier
    result; after a submission answered with a status that is not a
    success it no longer has the class [show]: an element of the result
    display has changed. *)
Lemma failed_response_hides_results :
  let w := fresh gen_shown in
  let r := submit generation (Response false (JsonParsed VNull)) store w in
  (minimum generation <= length (submitted generation w))%nat /\
  "show" ∈ classList (doc w Generate.results) /\
  ("show" ∉ classList (doc (snd r) Generate.results)) /\
  doc (snd r) Generate.results <> doc w Generate.results.
Proof.
  assert ("show" ∈ classList (doc (fresh gen_shown) Generate.results)) as Hin
    by apply classList_add_in.
  assert ("show" ∉ classList
            (doc (snd (submit generation (Response false (JsonParsed VNull))
                         store (fresh gen_shown))) Generate.results)) as Hout
    by apply classList_remove_out.
  cbv zeta. split; [vm_compute; lia|]. split; [done|]. split; [done|].
  intros Heq. rewrite Heq in Hout. done.
Qed.

(** C2, amended. In every flow, when a submission that passed validation
    is answered with a status that is not a success, the listener ends
    normally with the flow's generic message in the error element, shown;
    every element that [displayResults] fills in is as it was before the
    submission; their container is as it was except that it has lost the
    class [show]. *)
Theorem failed_response_shows_error (f : flow) (j : json_outcome)
    (fb : firebase) (w : world (Id f)) :
  (minimum f <= length (submitted f w))%nat ->
  let r := submit f (Response false j) fb w in
  fst r = inr tt /\
  textContent (doc (snd r) (errorMsg f)) = generic_error f /\
  "show" ∈ classList (doc (snd r) (errorMsg f)) /\
  (forall i, i ∈ outputs f -> doc (snd r) i = doc w i) /\
  doc (snd r) (results f) = classList_remove "show" (doc w (results f)).
Proof.
  intros H r; subst r.
  destruct f; unfold errorMsg, generic_error, outputs, results; unfold_submit;
    run_prelude; valid H; run.
  all: repeat split; try done;
    try (by rewrite ?update_ne by done; rewrite update_eq; apply classList_add_in).
  all: intros i Hi; in_list Hi; by subst i.
Qed.

Lemma failed_response_shows_error_witness :
  (minimum generation <= length (submitted generation (fresh gen_shown)))%nat /\
  let r := submit generation (Response false (JsonParsed VNull)) store
             (fresh gen_shown) in
  fst r = inr tt /\
  textContent (doc (snd r) Generate.errorMsg)
  = lit "Failed to generate text. Please try again." /\
  "show" ∈ classList (doc (snd r) Generate.errorMsg) /\
  (forall i, i ∈ outputs generation -> doc (snd r) i = gen_shown i) /\
  doc (snd r) Generate.results = classList_remove "show" (gen_shown Generate.results).
Proof.
  split; [vm_compute; lia|].
  apply (failed_response_shows_error generation (JsonParsed VNull) store
           (fresh gen_shown)).
  vm_compute; lia.
Defined.

(** ** Rendering *)





(** ** The audit log *)

Ltac assoc := rewrite <- ?app_assoc; cbn [app].

Ltac notin :=
  repeat (apply not_elem_of_cons; split; [done|]); apply not_elem_of_nil.


Ltac use_traces :=
  repeat match goal with Ht : trace _ = _ |- _ => rewrite Ht; clear Ht end;
  assoc.



(** C5 fails on the code. The summarization screen holds a text of 120
    letters and the store is in place; the response is a success of the
    documented shape that also carries an array inside an array, a
    document [add] refuses by throwing at the call.  [saveToFirestore] is
    called inside the [try] of the listener, so the exception of the write
    lands in its [catch]: the summary is rendered and shown, and over it
    the error element shows the generic failure message. *)
Theorem audit_failure_shows_error :
  let w := fresh sum_page in
  let r := submit summarization (Response true (JsonParsed nested_data))
             (Firebase true true (AddThrows invalid_data)) w in
  (minimum summarization <= length (submitted summarization w))%nat /\
  well_formed summarization nested_data /\
  ("show" ∉ classList (doc w Summarize.errorMsg)) /\
  fst r = inr tt /\
  textContent (doc (snd r) Summarize.summaryResult) = lit "aaa" /\
  "show" ∈ classList (doc (snd r) Summarize.results) /\
  textContent (doc (snd r) Summarize.errorMsg)
  = lit "Failed to generate summary. Please try again." /\
  "show" ∈ classList (doc (snd r) Summarize.errorMsg) /\
  last (trace (snd r)) = Some (ConsoleError (Some (lit "Error:")) invalid_data).
Proof.
  cbv zeta. split; [vm_compute; lia|]. split; [exact I|].
  split; [eapply (bool_decide_unpack _); by vm_compute|].
  split; [by vm_compute|]. split; [by vm_compute|].
  split; [eapply (bool_decide_unpack _); by vm_compute|].
  split; [by vm_compute|].
  split; [eapply (bool_decide_unpack _); by vm_compute|].
  by vm_compute.
Qed.

(** What a screen without a global [db] does: [generate.js] finds the SDK,
    reads [db], and the [ReferenceError] lands in the [catch] block, so
    that the generic message is shown over the rendered result. *)
Remark generation_without_db :
  let r := submit generation (Response true (JsonParsed gen_data))
             (Firebase true false AddFulfilled) (fresh gen_page) in
  textContent (doc (snd r) Generate.generatedText) = lit "Roses are red" /\
  textContent (doc (snd r) Generate.errorMsg)
  = lit "Failed to generate text. Please try again." /\
  "show" ∈ classList (doc (snd r) Generate.errorMsg).
Proof.
  cbv zeta. split; [by vm_compute|]. split; [by vm_compute|].
  eapply (bool_decide_unpack _). by vm_compute.
Qed.

(** The calls a submission that passed validation makes, after those
    made before: first the request, whose body is the serialised object
    with the submitted text as its first property; any write to the
    document store comes after it, only on a parsed success, goes to
    [results] and carries the record of the flow. *)
Lemma submit_trace (f : flow) (net : fetch_outcome) (fb : firebase)
    (w : world (Id f)) :
  (minimum f <= length (submitted f w))%nat ->
  exists others rest,
    trace (snd (submit f net fb w))
    = trace w ++
      Fetch (endpoint f)
        (Request (lit "POST") [(lit "Content-Type", lit "application/json")]
           (JSON_stringify
              (VObject ((text_field f, VString (submitted f w)) :: others))))
      :: rest /\
    forall c d, FirestoreAdd c d ∈ rest ->
      exists data,
        net = Response true (JsonParsed data) /\
        c = lit "results" /\
        d = AuditRecord (record_type f) (record_input f (submitted f w)) data
              serverTimestamp.
Proof.
  intros H.
  destruct f; unfold endpoint, text_field, record_type, record_input;
    unfold_submit; run_prelude; valid H; run.
  all: destruct net as [e|[] [data|e]]; run.
  all: try (assoc; eexists _, _; split; [reflexivity|];
            intros c d Hin; in_list Hin; discriminate Hin).
  all: split_display_here;
    [|split_store fb];
    use_traces; eexists _, _; (split; [reflexivity|]);
    intros c d Hin; in_list Hin; try discriminate Hin;
    injection Hin as -> ->; by eexists.
Qed.




(** ** Trimming *)

(** C10 as stated fails. The text area of the detection screen holds
    501 letters, which trimming leaves alone; the record written to the
    document store has the first 500 of them as its [input], not the
    trimmed text. *)
Lemma audit_input_truncated :
  let w := fresh det_page in
  let r := submit detection (Response true (JsonParsed det_data)) store w in
  submitted detection w = letters 501 /\
  FirestoreAdd (lit "results")
    (AuditRecord (lit "detection") (letters 500) det_data serverTimestamp)
    ∈ trace (snd r) /\
  letters 500 <> submitted detection w.
Proof.
  cbv zeta. split; [by vm_compute|]. split.
  - vm_compute. apply list_elem_of_further, list_elem_of_here.
  - intros Heq. apply (f_equal length) in Heq. vm_compute in Heq.
    discriminate Heq.
Qed.

(** C10, amended. In every flow the text is trimmed before both
    validation and dispatch.  When the trimmed text is shorter than the
    minimum, whatever the length of the raw value, no call is made and
    the error is shown.  Otherwise the first call is the request, whose
    body is the serialised object carrying the trimmed text; and the
    [input] of any record then written to the document store is taken
    from the trimmed text: the trimmed text in generation, its first 500
    code units in detection and summarization, which is all of it when
    it has no more than 500. *)
Theorem trimmed_text_is_validated_and_sent (f : flow) (net : fetch_outcome)
    (fb : firebase) (w : world (Id f)) :
  let text := trim (value (doc w (textInput f))) in
  let r := submit f net fb w in
  ((length text < minimum f)%nat ->
   trace (snd r) = trace w /\ "show" ∈ classList (doc (snd r) (errorMsg f))) /\
  ((minimum f <= length text)%nat ->
   exists others rest,
     trace (snd r)
     = trace w ++
       Fetch (endpoint f)
         (Request (lit "POST") [(lit "Content-Type", lit "application/json")]
            (JSON_stringify
               (VObject ((text_field f, VString text) :: others))))
       :: rest /\
     forall c d, FirestoreAdd c d ∈ rest -> Dom.input d = record_input f text) /\
  (f = generation \/ (length text <= 500)%nat -> record_input f text = text).
Proof.
  intros text r; subst text r. split; [|split].
  - intros H.
    destruct (validation_blocks_submission f net fb w H) as (_ & Ht & _ & Hs & _).
    done.
  - intros H.
    destruct (submit_trace f net fb w H) as (others & rest & Htr & Hadd).
    exists others, rest. split; [exact Htr|].
    intros c d Hin. by destruct (Hadd c d Hin) as (data & _ & _ & ->).
  - intros [->|Hlen]; [done|].
    destruct f; [done| |]; by apply take_ge.
Qed.

Lemma trimmed_text_is_validated_and_sent_witness :
  (length (trim (value (gen_short Generate.promptText))) < 10)%nat /\
  (10 <= length (value (gen_short Generate.promptText)))%nat /\
  trace (snd (submit generation (Response true (JsonParsed gen_data)) store
                (fresh gen_short))) = [] /\
  (minimum detection <= length (trim (value (det_page Detect.detectText))))%nat /\
  exists others rest,
    trace (snd (submit detection (Response true (JsonParsed det_data)) store
                  (fresh det_page)))
    = [] ++
      Fetch Detect.endpoint
        (Request (lit "POST") [(lit "Content-Type", lit "application/json")]
           (JSON_stringify
              (VObject ((lit "text",
                         VString (trim (value (det_page Detect.detectText))))
                        :: others))))
      :: rest /\
    forall c d, FirestoreAdd c d ∈ rest ->
      Dom.input d
      = substring0 500 (trim (value (det_page Detect.detectText))).
Proof.
  assert (length (trim (value (gen_short Generate.promptText))) < 10)%nat
    as Hshort by (vm_compute; lia).
  assert (minimum detection <= length (trim (value (det_page Detect.detectText))))%nat
    as Hlong by (vm_compute; lia).
  split; [exact Hshort|]. split; [vm_compute; lia|]. split.
  - exact (proj1 (proj1 (trimmed_text_is_validated_and_sent generation
             (Response true (JsonParsed gen_data)) store (fresh gen_short))
             Hshort)).
  - split; [exact Hlong|].
    exact (proj1 (proj2 (trimmed_text_is_validated_and_sent detection
             (Response true (JsonParsed det_data)) store (fresh det_page)))
             Hlong).
Defined.

(** ** Copying *)

Ltac el_fields :=
  cbn [value textContent classList disabled style_display style_color
       style_background style_width].

Lemma reset_button_eq (f : flow) (el : element) :
  reset_button f el
  = Element (value el) (idle_label f) (classList el ∖ {["copied"]}) (disabled el)
      (style_display el) (style_color el) (style_background el) (style_width el).
Proof. reflexivity. Qed.

Lemma reset_button_idem (f : flow) (el : element) :
  reset_button f (reset_button f el) = reset_button f el.
Proof.
  rewrite !reset_button_eq; el_fields.
  f_equal. apply set_eq. intros x. rewrite !elem_of_difference. tauto.
Qed.

Lemma reset_button_copied (f : flow) (el : element) :
  reset_button f (classList_add "copied" (set_textContent (VString copied_label) el))
  = reset_button f el.
Proof.
  rewrite !reset_button_eq. unfold classList_add, set_textContent. el_fields.
  f_equal. apply set_eq. intros x.
  rewrite !elem_of_difference, elem_of_union. tauto.
Qed.

Lemma reset_button_idle (f : flow) (el : element) :
  textContent el = idle_label f -> "copied" ∉ classList el ->
  reset_button f el = el.
Proof.
  rewrite reset_button_eq.
  destruct el as [v t cl dis sd sc sb sw]; el_fields. intros -> Hc.
  f_equal. apply set_eq. intros x. rewrite elem_of_difference, elem_of_singleton.
  split; [tauto|]. intros Hx. split; [done|]. by intros ->.
Qed.

Lemma copyBtn_reset_eq (f : flow) (w : world (Id f)) :
  copyBtn_reset f w
  = (inr tt,
     World (update (copyBtn f) (classList_remove "copied")
              (update (copyBtn f) (set_textContent (VString (idle_label f)))
                 (doc w)))
       (trace w) (timers w)).
Proof. by destruct f. Qed.

Lemma copyBtn_click_eq (f : flow) (w : world (Id f)) :
  copyBtn_click f ClipboardFulfilled w
  = (inr tt,
     World (update (copyBtn f) (classList_add "copied")
              (update (copyBtn f) (set_textContent (VString copied_label))
                 (doc w)))
       (trace w ++ [ClipboardWriteText (copied_text f (doc w))])
       (timers w ++ [2000%nat])).
Proof. by destruct f. Qed.

Lemma copyBtn_click_rejected (f : flow) (w : world (Id f)) :
  copyBtn_click f ClipboardRejected w
  = (inr tt,
     World (doc w) (trace w ++ [ClipboardWriteText (copied_text f (doc w))])
       (timers w)).
Proof. by destruct f. Qed.

(** Any number of resets in a row: one is as good as many. *)
Lemma resets_fold (f : flow) (l : list nat) (w : world (Id f)) :
  let X := fold_left (fun w _ => snd (copyBtn_reset f w)) l w in
  trace X = trace w /\ timers X = timers w /\
  (forall i, i <> copyBtn f -> doc X i = doc w i) /\
  doc X (copyBtn f)
  = match l with
    | [] => doc w (copyBtn f)
    | _ => reset_button f (doc w (copyBtn f))
    end.
Proof.
  revert w. induction l as [|a l IH]; intros w; [done|].
  cbn [fold_left]. rewrite copyBtn_reset_eq. cbn [snd].
  destruct (IH (World (update (copyBtn f) (classList_remove "copied")
                         (update (copyBtn f)
                            (set_textContent (VString (idle_label f))) (doc w)))
                  (trace w) (timers w))) as (Ht & Hm & Hf & Hc).
  cbn [doc trace timers] in *.
  split; [done|]. split; [done|]. split.
  - intros i Hi. rewrite Hf by done. by rewrite !update_ne by done.
  - rewrite Hc, !update_eq.
    change (classList_remove "copied" (set_textContent (VString (idle_label f)) ?e))
      with (reset_button f e).
    destruct l; [done|]. apply reset_button_idem.
Qed.

(** Two seconds after an accepted copy the button has been reset,
    whatever other resets were pending, and nothing else has changed. *)
Lemma elapse_after_click (f : flow) (w : world (Id f)) :
  let w' := elapse (copyBtn_reset f) 2000
              (snd (copyBtn_click f ClipboardFulfilled w)) in
  doc w' (copyBtn f) = reset_button f (doc w (copyBtn f)) /\
  forall i, i <> copyBtn f -> doc w' i = doc w i.
Proof.
  cbv zeta. rewrite copyBtn_click_eq. unfold elapse. cbn [snd doc trace timers].
  rewrite filter_app.
  replace (filter (λ t : nat, (t <=? 2000)%nat) [2000%nat]) with [2000%nat]
    by reflexivity.
  rewrite fold_left_app. cbn [fold_left]. rewrite copyBtn_reset_eq. cbn [snd doc].
  match goal with
  | |- context [fold_left ?g ?l ?W] =>
      destruct (resets_fold f l W) as (_ & _ & Hf & Hc)
  end.
  cbn [doc] in *. split.
  - rewrite !update_eq, Hc, !update_eq.
    change (classList_remove "copied" (set_textContent (VString (idle_label f)) ?e))
      with (reset_button f e).
    match goal with |- context [match ?l with _ => _ end] => destruct l end;
      [|rewrite reset_button_idem]; apply reset_button_copied.
  - intros i Hi. rewrite !update_ne by done. rewrite Hf by done.
    by rewrite !update_ne by done.
Qed.

(** Before that, with no other timer pending, it still confirms. *)
Lemma elapse_before (f : flow) (t : nat) (w : world (Id f)) :
  (t < 2000)%nat -> timers w = [] ->
  doc (elapse (copyBtn_reset f) t (snd (copyBtn_click f ClipboardFulfilled w)))
      (copyBtn f)
  = classList_add "copied" (set_textContent (VString copied_label) (doc w (copyBtn f))).
Proof.
  intros Ht Hnil. rewrite copyBtn_click_eq. unfold elapse.
  cbn [snd doc trace timers]. rewrite Hnil. cbn [app].
  rewrite filter_cons_False by (apply Is_true_false, Nat.leb_gt; lia).
  rewrite filter_nil. cbn [fold_left doc]. by rewrite !update_eq.
Qed.

(** C6 as stated fails. The detection screen shows its details; the
    text written to the clipboard is not that text: a heading and an
    empty line come first. *)
Lemma detection_copy_adds_heading :
  let w := fresh det_page in
  let r := copyBtn_click detection ClipboardFulfilled w in
  result_text detection (doc w) = lit "Detection Confidence: 88%" /\
  trace (snd r)
  = [ClipboardWriteText
       (lit "AI Detection Results" ++ [10; 10]%N ++ lit "Detection Confidence: 88%")] /\
  (ClipboardWriteText (result_text detection (doc w)) ∉ trace (snd r)).
Proof.
  cbv zeta. split; [by vm_compute|]. split; [by vm_compute|].
  vm_compute. intros Hin. apply list_elem_of_singleton in Hin. discriminate Hin.
Qed.

(** C6, amended. In every flow a click on the copy button calls
    [writeText] once, with the text of the result element in generation
    and summarization and with the heading [AI Detection Results] and an
    empty line followed by the text of the details element in detection.
    When the clipboard accepts it, 2000 ms later the button differs from
    what it was at the click in its label, which is the fixed label of
    the flow ([Copy Text], [Copy Results], [Copy Summary]), and in having
    no class [copied]; so it is as it was if it then had that label and
    not that class; until then, no other timer pending, it reads
    [Copied!] after a check mark.  When the clipboard refuses, the page is
    left as it was. *)
Theorem copy_writes_result_text (f : flow) (clip : clipboard_outcome)
    (w : world (Id f)) :
  let r := copyBtn_click f clip w in
  fst r = inr tt /\
  trace (snd r) = trace w ++ [ClipboardWriteText (copied_text f (doc w))] /\
  (clip = ClipboardFulfilled ->
     let w' := elapse (copyBtn_reset f) 2000 (snd r) in
     doc w' (copyBtn f) = reset_button f (doc w (copyBtn f)) /\
     textContent (doc w' (copyBtn f)) = idle_label f /\
     ("copied" ∉ classList (doc w' (copyBtn f))) /\
     (textContent (doc w (copyBtn f)) = idle_label f ->
      "copied" ∉ classList (doc w (copyBtn f)) ->
      doc w' (copyBtn f) = doc w (copyBtn f)) /\
     (forall t, (t < 2000)%nat -> timers w = [] ->
        textContent (doc (elapse (copyBtn_reset f) t (snd r)) (copyBtn f))
        = copied_label)) /\
  (clip = ClipboardRejected -> doc (snd r) = doc w /\ timers (snd r) = timers w).
Proof.
  intros r; subst r. destruct clip.
  - rewrite copyBtn_click_eq at 1 2. cbn [fst snd trace].
    split; [done|]. split; [done|]. split; [|done]. intros _.
    destruct (elapse_after_click f w) as [Hc _]. cbv zeta in Hc.
    cbv zeta. rewrite Hc. split; [done|]. split; [done|].
    split; [apply classList_remove_out|]. split.
    + apply reset_button_idle.
    + intros t Ht Hnil. by rewrite elapse_before.
  - rewrite copyBtn_click_rejected. cbn [fst snd trace doc timers].
    split; [done|]. split; [done|]. split; [done|]. done.
Qed.

Lemma copy_writes_result_text_witness :
  let r := copyBtn_click generation ClipboardFulfilled (fresh gen_shown) in
  trace (snd r) = [] ++ [ClipboardWriteText (lit "Roses are red")] /\
  textContent (doc (elapse Generate.copyBtn_reset 2000 (snd r)) Generate.copyBtn)
  = lit "Copy Text".
Proof.
  cbv zeta.
  destruct (copy_writes_result_text generation ClipboardFulfilled (fresh gen_shown))
    as (_ & Ht & Hc & _).
  split; [exact Ht|]. exact (proj1 (proj2 (Hc eq_refl))).
Defined.

(** ** File upload *)

(** C8. In the detection screen, for every selected file, the handler
    starts reading the file, and reads no other, if and only if the MIME
    type of the file is [text/plain]; when it is and the reader delivers
    the text, the text area holds it (as a text area holds text: newlines
    normalised) and the counter its length; when it is not, nothing is
    read, the text area is as it was and the error element shows
    [Please upload a .txt file]. *)
Theorem upload_reads_plain_text_only (f : file) (loaded : bool)
    (w : world Detect.id) :
  let r := Detect.fileUpload_change (Some f) loaded w in
  fst r = inr tt /\
  exists new,
    trace (snd r) = trace w ++ new /\
    (ReadAsText f ∈ new <-> file_type f = lit "text/plain") /\
    (forall g, ReadAsText g ∈ new -> g = f) /\
    (file_type f = lit "text/plain" -> loaded = true ->
       value (doc (snd r) Detect.detectText) = normalizeNewlines (file_text f) /\
       textContent (doc (snd r) Detect.charCount)
       = Number_toString
           (Number_of_Z (Z.of_nat (length (normalizeNewlines (file_text f)))))) /\
    (file_type f <> lit "text/plain" ->
       new = [] /\
       doc (snd r) Detect.detectText = doc w Detect.detectText /\
       textContent (doc (snd r) Detect.errorMsg) = lit "Please upload a .txt file" /\
       "show" ∈ classList (doc (snd r) Detect.errorMsg)).
Proof.
  intros r; subst r. unfold Detect.fileUpload_change.
  destruct (jsstring_eqb (file_type f) (lit "text/plain")) eqn:Ht.
  - apply jsstring_eqb_eq in Ht.
    destruct loaded; unfold Detect.reader_onload; run_prelude.
    all: split; [done|]; exists [ReadAsText f]; split; [done|].
    all: split; [split; [done|]; intros _; apply list_elem_of_here|].
    all: split; [intros g Hg; apply list_elem_of_singleton in Hg; by injection Hg|].
    all: split; [|done]; intros _ Hl; try discriminate Hl.
    cbn [doc]. by rewrite ?update_ne, ?update_eq by done.
  - assert (file_type f <> lit "text/plain") as Hne
      by (intros Heq%jsstring_eqb_eq; congruence).
    run_prelude. split; [done|]. exists []. split; [by rewrite app_nil_r|].
    split; [|split; [|split]].
    + split; [by intros Hin%elem_of_nil|done].
    + by intros g Hin%elem_of_nil.
    + done.
    + intros _. split; [done|]. split; [by rewrite !update_ne by done|].
      split; [by rewrite update_eq|]. rewrite update_eq. apply classList_add_in.
Qed.

Lemma upload_reads_plain_text_only_witness :
  file_type plain_file = lit "text/plain" /\
  file_type pdf_file <> lit "text/plain" /\
  value (doc (snd (Detect.fileUpload_change (Some plain_file) true (fresh det_page)))
             Detect.detectText) = lit "hello" /\
  trace (snd (Detect.fileUpload_change (Some pdf_file) true (fresh det_page))) = [] /\
  "show" ∈ classList
    (doc (snd (Detect.fileUpload_change (Some pdf_file) true (fresh det_page)))
         Detect.errorMsg).
Proof.
  assert (file_type pdf_file <> lit "text/plain") as Hpdf
    by (vm_compute; discriminate).
  split; [reflexivity|]. split; [exact Hpdf|].
  destruct (upload_reads_plain_text_only plain_file true (fresh det_page))
    as (_ & new1 & _ & _ & _ & Hplain & _).
  destruct (upload_reads_plain_text_only pdf_file true (fresh det_page))
    as (_ & new2 & Htr & _ & _ & _ & Hother).
  split; [exact (proj1 (Hplain eq_refl eq_refl))|].
  destruct (Hother Hpdf) as (Hnew & _ & _ & Hshow).
  split; [|exact Hshow]. rewrite Htr, Hnew. reflexivity.
Defined.

(* ===================================================================== *)
(** * Further properties                                                 *)
(* ===================================================================== *)

Import Behaviour MoreSamples.

Ltac long_enough := vm_compute; lia.

(** Failures before a response is parsed *)

(** X1. In every flow, a submission that passed validation and whose request
    is rejected, answered with a status that is not a success, or answered
    with a body that does not parse, ends normally having made the one
    request and logged the exception under [Error:]; the error element
    shows the flow's generic message, the result elements are as they
    were, and the page it leaves is the same element for element whichever
    of these failures it was and whatever the document store does. *)
Theorem transport_failure_looks_the_same (f : flow) (net : fetch_outcome)
    (e : exn) (fb : firebase) (w : world (Id f)) :
  (minimum f <= length (submitted f w))%nat ->
  failure f net = Some e ->
  let r := submit f net fb w in
  fst r = inr tt /\
  (exists init,
     trace (snd r)
     = trace w ++ [Fetch (endpoint f) init; ConsoleError (Some (lit "Error:")) e]) /\
  textContent (doc (snd r) (errorMsg f)) = generic_error f /\
  "show" ∈ classList (doc (snd r) (errorMsg f)) /\
  (forall i, i ∈ outputs f -> doc (snd r) i = doc w i) /\
  (forall net' e' fb', failure f net' = Some e' ->
     forall i, doc (snd (submit f net' fb' w)) i = doc (snd r) i).
Proof.
  intros H Hf r; subst r.
  destruct f; unfold errorMsg, generic_error, outputs, endpoint; unfold_submit;
    run_prelude; valid H; run.
  all: destruct net as [e0|[] [data|e0]]; try discriminate Hf;
    injection Hf as <-; run.
  all: split; [done|]; split; [assoc; by eexists|].
  all: split; [done|].
  all: split; [by rewrite ?update_ne by done; rewrite update_eq; apply classList_add_in|].
  all: split; [intros i Hi; in_list Hi; by subst i|].
  all: intros net' e' fb' Hf' i;
    destruct net' as [e1|[] [data1|e1]]; try discriminate Hf'; run; done.
Qed.

Lemma transport_failure_looks_the_same_witness :
  (minimum generation <= length (submitted generation (fresh gen_shown)))%nat /\
  failure generation offline = Some (TypeError (lit "Failed to fetch")) /\
  let r := submit generation offline store (fresh gen_shown) in
  textContent (doc (snd r) Generate.errorMsg)
  = lit "Failed to generate text. Please try again." /\
  forall i, i ∈ outputs generation -> doc (snd r) i = gen_shown i.
Proof.
  assert (minimum generation <= length (submitted generation (fresh gen_shown)))%nat
    as Hlen by long_enough.
  split; [exact Hlen|]. split; [reflexivity|].
  destruct (transport_failure_looks_the_same generation offline
              (TypeError (lit "Failed to fetch")) store (fresh gen_shown)
              Hlen eq_refl) as (_ & _ & Hmsg & _ & Hout & _).
  split; [exact Hmsg|exact Hout].
Defined.

(** X2. In every flow, a success whose body parses to [null] (or to
    [undefined]) is handled as a failure: reading the first field throws,
    the exception is logged after the request, the generic message is
    shown, no result element is written and the results container does
    not show. *)
Theorem null_response_is_an_error (f : flow) (data : jsvalue) (fb : firebase)
    (w : world (Id f)) :
  (minimum f <= length (submitted f w))%nat ->
  nullish data ->
  let r := submit f (Response true (JsonParsed data)) fb w in
  fst r = inr tt /\
  (exists init e,
     trace (snd r)
     = trace w ++ [Fetch (endpoint f) init; ConsoleError (Some (lit "Error:")) e]) /\
  textContent (doc (snd r) (errorMsg f)) = generic_error f /\
  "show" ∈ classList (doc (snd r) (errorMsg f)) /\
  (forall i, i ∈ outputs f -> doc (snd r) i = doc w i) /\
  ("show" ∉ classList (doc (snd r) (results f))).
Proof.
  intros H Hn r; subst r.
  destruct f; unfold errorMsg, generic_error, outputs, endpoint, results;
    unfold_submit; run_prelude; valid H; run.
  all: destruct data; try done.
  all: unfold try_catch_finally; run.
  all: unfold Generate.displayResults, Detect.displayResults,
         Summarize.displayResults; cbn [get]; run.
  all: split; [done|]; split; [assoc; by eexists _, _|].
  all: split; [done|].
  all: split; [by rewrite ?update_ne by done; rewrite update_eq; apply classList_add_in|].
  all: split; [intros i Hi; in_list Hi; by subst i|].
  all: rewrite ?update_ne by done; rewrite update_eq; apply classList_remove_out.
Qed.

Lemma null_response_is_an_error_witness :
  (minimum detection <= length (submitted detection (fresh det_page)))%nat /\
  nullish VNull /\
  let r := submit detection (Response true (JsonParsed VNull)) store
             (fresh det_page) in
  textContent (doc (snd r) Detect.errorMsg)
  = lit "An error occurred while analyzing the text. Please try again." /\
  ("show" ∉ classList (doc (snd r) Detect.results)).
Proof.
  assert (minimum detection <= length (submitted detection (fresh det_page)))%nat
    as Hlen by long_enough.
  split; [exact Hlen|]. split; [exact I|].
  destruct (null_response_is_an_error detection VNull store (fresh det_page)
              Hlen I) as (_ & _ & Hmsg & _ & _ & Hres).
  split; [exact Hmsg|exact Hres].
Defined.

(** The request *)

Ltac no_fetch :=
  let x := fresh in let Hx := fresh in
  intros x Hx; in_list Hx; by subst x.

Lemma submit_request (f : flow) (net : fetch_outcome) (fb : firebase)
    (w : world (Id f)) :
  (minimum f <= length (submitted f w))%nat ->
  exists rest,
    trace (snd (submit f net fb w))
    = trace w ++
      Fetch (endpoint f)
        (Request (lit "POST") [(lit "Content-Type", lit "application/json")]
           (JSON_stringify (payload f (doc w))))
      :: rest /\
    Forall (fun x => is_fetch x = false) rest.
Proof.
  intros H.
  destruct f; unfold endpoint, payload; unfold_submit; run_prelude; valid H; run.
  all: rewrite ?update_ne by done.
  all: destruct net as [e|[] [data|e]]; run.
  all: try (assoc; eexists; split; [reflexivity|]; (apply Forall_forall; no_fetch)).
  all: split_display_here; [|split_store fb]; use_traces;
    (eexists; split; [reflexivity|]; (apply Forall_forall; no_fetch)).
Qed.

(** X3. In every flow, a submission that passed validation makes its request
    first, a [POST] to the flow's endpoint with a JSON content type whose
    body serialises the [payload] read from the page as it was at the
    click, and makes no other request, whatever comes back. *)
Theorem request_sent_once (f : flow) (net : fetch_outcome) (fb : firebase)
    (w : world (Id f)) :
  (minimum f <= length (submitted f w))%nat ->
  exists rest,
    trace (snd (submit f net fb w))
    = trace w ++
      Fetch (endpoint f)
        (Request (lit "POST") [(lit "Content-Type", lit "application/json")]
           (JSON_stringify (payload f (doc w))))
      :: rest /\
    forall x, x ∈ rest -> is_fetch x = false.
Proof.
  intros H.
  destruct (submit_request f net fb w H) as (rest & Htr & Hrest).
  exists rest. split; [exact Htr|].
  intros x Hx. rewrite Forall_forall in Hrest. exact (Hrest x Hx).
Qed.

Lemma request_sent_once_witness :
  (minimum summarization <= length (submitted summarization (fresh sum_page)))%nat /\
  exists rest,
    trace (snd (submit summarization (Response true (JsonParsed sum_data)) store
                  (fresh sum_page)))
    = [] ++
      Fetch Summarize.endpoint
        (Request (lit "POST") [(lit "Content-Type", lit "application/json")]
           (JSON_stringify (payload summarization sum_page)))
      :: rest /\
    forall x, x ∈ rest -> is_fetch x = false.
Proof.
  assert (minimum summarization
          <= length (submitted summarization (fresh sum_page)))%nat
    as Hlen by long_enough.
  split; [exact Hlen|].
  exact (request_sent_once summarization (Response true (JsonParsed sum_data))
           store (fresh sum_page) Hlen).
Defined.

Lemma trimStart_head (s : jsstring) (c : char16) :
  head (trimStart s) = Some c -> isWhiteSpace c = false.
Proof.
  induction s as [|a s IH]; [done|]. cbn [trimStart].
  destruct (isWhiteSpace a) eqn:Ha; [done|]. by intros [= <-].
Qed.

Lemma trimStart_suffix (s : jsstring) : exists k, s = k ++ trimStart s.
Proof.
  induction s as [|a s [k IH]]; [by exists []|]. cbn [trimStart].
  destruct (isWhiteSpace a); [|by exists []].
  exists (a :: k). cbn [app]. by f_equal.
Qed.

Lemma trimStart_fixed (s : jsstring) :
  (forall c, head s = Some c -> isWhiteSpace c = false) -> trimStart s = s.
Proof.
  destruct s as [|a s]; [done|]. intros H. cbn [trimStart].
  by rewrite (H a eq_refl).
Qed.

Lemma last_rev (s : jsstring) : last (rev s) = head s.
Proof. destruct s as [|a s]; [done|]. cbn [rev]. by rewrite last_snoc. Qed.

Lemma head_rev (s : jsstring) : head (rev s) = last s.
Proof. by rewrite <- (rev_involutive s) at 2; rewrite last_rev. Qed.

Lemma trimEnd_prefix (s : jsstring) : exists k, s = trimEnd s ++ k.
Proof.
  unfold trimEnd. destruct (trimStart_suffix (rev s)) as [k Hk].
  exists (rev k). rewrite <- rev_app_distr, <- Hk. by rewrite rev_involutive.
Qed.

Lemma trim_clean (s : jsstring) : clean (trim s).
Proof.
  unfold clean, trim. split; intros c Hc.
  - destruct (trimEnd_prefix (trimStart s)) as [k Hk].
    apply (trimStart_head s c). rewrite Hk.
    destruct (trimEnd (trimStart s)); [done|exact Hc].
  - unfold trimEnd in Hc. rewrite last_rev in Hc. by eapply trimStart_head.
Qed.

Lemma trim_idempotent (s : jsstring) : trim (trim s) = trim s.
Proof.
  destruct (trim_clean s) as [Hh Hl]. unfold trim at 1.
  rewrite (trimStart_fixed _ Hh). unfold trimEnd.
  rewrite trimStart_fixed; [apply rev_involutive|].
  intros c. rewrite head_rev. apply Hl.
Qed.

(** X4. In every flow, the text field of the request carries the trimmed text:
    it is not empty, has no white space at either end and trimming it
    again changes nothing. *)
Theorem sent_text_is_clean (f : flow) (net : fetch_outcome) (fb : firebase)
    (w : world (Id f)) :
  (minimum f <= length (submitted f w))%nat ->
  let t := submitted f w in
  (exists others rest,
     trace (snd (submit f net fb w))
     = trace w ++
       Fetch (endpoint f)
         (Request (lit "POST") [(lit "Content-Type", lit "application/json")]
            (JSON_stringify (VObject ((text_field f, VString t) :: others))))
       :: rest) /\
  clean t /\
  t <> [] /\
  trim t = t.
Proof.
  intros H t; subst t. split; [|split; [|split]].
  - destruct (submit_trace f net fb w H) as (others & rest & Htr & _).
    by exists others, rest.
  - apply trim_clean.
  - intros Heq. rewrite Heq in H. destruct f; cbn in H; lia.
  - apply trim_idempotent.
Qed.

Lemma sent_text_is_clean_witness :
  (minimum generation <= length (submitted generation (fresh gen_page)))%nat /\
  clean (submitted generation (fresh gen_page)) /\
  trim (submitted generation (fresh gen_page)) = submitted generation (fresh gen_page).
Proof.
  assert (minimum generation <= length (submitted generation (fresh gen_page)))%nat
    as Hlen by long_enough.
  split; [exact Hlen|].
  destruct (sent_text_is_clean generation offline store (fresh gen_page) Hlen)
    as (_ & Hc & _ & Ht).
  split; [exact Hc|exact Ht].
Defined.

(** X5. In the generation flow, an [input] event on the temperature slider
    copies the slider's value into the temperature label and changes no
    other element; the temperature of a request made afterwards is
    [parseFloat] of the text that label shows. *)
Theorem displayed_temperature_is_sent (net : fetch_outcome) (fb : firebase)
    (w : world Generate.id) :
  let w1 := snd (Generate.tempSlider_input w) in
  textContent (doc w1 Generate.tempValue) = value (doc w Generate.tempSlider) /\
  (forall i, i <> Generate.tempValue -> doc w1 i = doc w i) /\
  ((minimum generation <= length (submitted generation w))%nat ->
   exists rest,
     trace (snd (Generate.performGeneration net fb w1))
     = trace w ++
       Fetch Generate.endpoint
         (Request (lit "POST") [(lit "Content-Type", lit "application/json")]
            (JSON_stringify
               (VObject
                  [(lit "prompt", VString (submitted generation w));
                   (lit "tone", VString (value (doc w Generate.toneSelect)));
                   (lit "maxLength",
                    VNumber (parseInt (value (doc w Generate.lengthSelect))));
                   (lit "temperature",
                    VNumber (parseFloat
                               (textContent (doc w1 Generate.tempValue))))])))
       :: rest).
Proof.
  cbv zeta. unfold Generate.tempSlider_input; run_prelude.
  split; [by rewrite update_eq|]. split; [intros i Hi; by rewrite update_ne|].
  intros H.
  match goal with
  | |- context [Generate.performGeneration net fb ?W] =>
      destruct (submit_request generation net fb W) as (rest & Hreq & _);
        [unfold submitted in *; cbn [textInput doc] in *;
         by rewrite update_ne by done|]
  end.
  exists rest. cbn [Id submit endpoint payload doc trace] in Hreq.
  rewrite update_eq. rewrite ?update_ne in Hreq by done.
  exact Hreq.
Qed.

Lemma displayed_temperature_is_sent_witness :
  (minimum generation <= length (submitted generation (fresh gen_page)))%nat /\
  textContent (doc (snd (Generate.tempSlider_input (fresh gen_page)))
                   Generate.tempValue) = lit "0.7" /\
  exists rest,
    trace (snd (Generate.performGeneration offline store
                  (snd (Generate.tempSlider_input (fresh gen_page)))))
    = [] ++
      Fetch Generate.endpoint
        (Request (lit "POST") [(lit "Content-Type", lit "application/json")]
           (JSON_stringify
              (VObject
                 [(lit "prompt", VString (submitted generation (fresh gen_page)));
                  (lit "tone", VString (value (gen_page Generate.toneSelect)));
                  (lit "maxLength",
                   VNumber (parseInt (value (gen_page Generate.lengthSelect))));
                  (lit "temperature",
                   VNumber
                     (parseFloat
                        (textContent
                           (doc (snd (Generate.tempSlider_input (fresh gen_page)))
                                Generate.tempValue))))])))
      :: rest.
Proof.
  assert (minimum generation <= length (submitted generation (fresh gen_page)))%nat
    as Hlen by long_enough.
  split; [exact Hlen|].
  destruct (displayed_temperature_is_sent offline store (fresh gen_page))
    as (Ht & _ & Hs).
  split; [exact Ht|]. exact (Hs Hlen).
Defined.

(** Rendering a detection result *)






(** The world in which [displayResults] runs on the success path: the
    result elements are as at the click, and what they are at the end is
    what [displayResults] makes of them. *)




(** The document store *)

(** X9. In every flow, a submission writes to the document store only when
    the response was a success whose body parsed, and then the results
    container shows: nothing is recorded for a result that was not
    rendered. *)
Theorem audit_only_after_render (f : flow) (net : fetch_outcome) (fb : firebase)
    (w : world (Id f)) :
  (minimum f <= length (submitted f w))%nat ->
  let r := submit f net fb w in
  exists new,
    trace (snd r) = trace w ++ new /\
    ((exists x, x ∈ new /\ is_add x = true) ->
     "show" ∈ classList (doc (snd r) (results f)) /\
     exists data, net = Response true (JsonParsed data)).
Proof.
  intros H r; subst r.
  destruct f; unfold results; unfold_submit; run_prelude; valid H; run.
  all: destruct net as [e|[] [data|e]]; run.
  all: try (assoc; eexists; split; [reflexivity|];
            intros (x & Hx & Hadd); in_list Hx; subst x; discriminate Hadd).
  all: split_display_here; [|split_store fb]; use_traces;
    (eexists; split; [reflexivity|]);
    intros (x & Hx & Hadd); in_list Hx; subst x; try discriminate Hadd.
  all: (split; [|by eexists]); cbn [doc]; rewrite ?update_ne by done.
  all: match goal with
       | D : Generate.displayResults _ _ = _ |- _ => exact (display_shows generation _ _ _ D)
       | D : Detect.displayResults _ _ = _ |- _ => exact (display_shows detection _ _ _ D)
       | D : Summarize.displayResults _ _ = _ |- _ => exact (display_shows summarization _ _ _ D)
       end.
Qed.

Lemma audit_only_after_render_witness :
  (minimum generation <= length (submitted generation (fresh gen_page)))%nat /\
  exists new,
    trace (snd (submit generation (Response true (JsonParsed gen_data)) store
                  (fresh gen_page))) = [] ++ new /\
    ((exists x, x ∈ new /\ is_add x = true) ->
     "show" ∈ classList
       (doc (snd (submit generation (Response true (JsonParsed gen_data)) store
                    (fresh gen_page))) Generate.results) /\
     exists data, Response true (JsonParsed gen_data) = Response true (JsonParsed data)).
Proof.
  assert (minimum generation <= length (submitted generation (fresh gen_page)))%nat
    as Hlen by long_enough.
  split; [exact Hlen|].
  exact (audit_only_after_render generation (Response true (JsonParsed gen_data))
           store (fresh gen_page) Hlen).
Defined.





(** X12. In every flow, the [input] of any record a submission adds to the
    store is a prefix of the trimmed text that was sent, at least as long
    as the flow's minimum; in detection and summarization it has at most
    500 units, in generation it is the whole text. *)
Theorem audit_input_is_a_bounded_prefix (f : flow) (net : fetch_outcome)
    (fb : firebase) (w : world (Id f)) :
  (minimum f <= length (submitted f w))%nat ->
  exists new,
    trace (snd (submit f net fb w)) = trace w ++ new /\
    forall c d, FirestoreAdd c d ∈ new ->
      (exists k, submitted f w = Dom.input d ++ k) /\
      (minimum f <= length (Dom.input d))%nat /\
      (f <> generation -> (length (Dom.input d) <= 500)%nat) /\
      (f = generation -> Dom.input d = submitted f w).
Proof.
  intros H.
  destruct (submit_trace f net fb w H) as (others & rest & Htr & Hadd).
  eexists (_ :: rest). split; [exact Htr|].
  intros c d Hin. apply elem_of_cons in Hin as [Hin|Hin]; [discriminate Hin|].
  destruct (Hadd c d Hin) as (data & _ & _ & ->). cbn [Dom.input].
  destruct f; cbn [record_input minimum] in *; unfold substring0.
  - split; [exists []; by rewrite app_nil_r|]. done.
  - split; [eexists; symmetry; apply take_drop|].
    rewrite length_take. split; [lia|]. split; [lia|done].
  - split; [eexists; symmetry; apply take_drop|].
    rewrite length_take. split; [lia|]. split; [lia|done].
Qed.

Lemma audit_input_is_a_bounded_prefix_witness :
  (minimum detection <= length (submitted detection (fresh det_page)))%nat /\
  exists new,
    trace (snd (submit detection (Response true (JsonParsed det_data)) store
                  (fresh det_page))) = [] ++ new /\
    forall c d, FirestoreAdd c d ∈ new ->
      (exists k, submitted detection (fresh det_page) = Dom.input d ++ k) /\
      (minimum detection <= length (Dom.input d))%nat /\
      (detection <> generation -> (length (Dom.input d) <= 500)%nat) /\
      (detection = generation -> Dom.input d = submitted detection (fresh det_page)).
Proof.
  assert (minimum detection <= length (submitted detection (fresh det_page)))%nat
    as Hlen by long_enough.
  split; [exact Hlen|].
  exact (audit_input_is_a_bounded_prefix detection
           (Response true (JsonParsed det_data)) store (fresh det_page) Hlen).
Defined.

(** What a submission leaves alone *)

Lemma submit_frame (f : flow) (net : fetch_outcome) (fb : firebase)
    (w : world (Id f)) (i : Id f) :
  i ∉ touched f -> doc (snd (submit f net fb w)) i = doc w i.
Proof.
  intros Hi.
  destruct f; unfold touched in Hi;
    cbn [errorMsg results loading buttons outputs app] in Hi;
    repeat (apply not_elem_of_cons in Hi; destruct Hi as [? Hi]);
    unfold_submit; run_prelude.
  all: destruct (isEmpty _); [run_prelude; by rewrite ?update_ne by congruence|].
  all: destruct (_ <? _)%nat; [run_prelude; by rewrite ?update_ne by congruence|].
  all: run; destruct net as [e|[] [data|e]]; run;
    try by rewrite ?update_ne by congruence.
  all: split_display_here; [|split_store fb]; cbn [doc];
    rewrite ?update_ne by congruence;
    (rewrite F by (repeat (apply not_elem_of_cons; split; [congruence|]);
                   apply not_elem_of_nil));
    cbn [doc]; by rewrite ?update_ne by congruence.
Qed.

(** X13. In every flow, whatever the text, the response and the store, a
    submission changes no element other than the error element, the
    results container, the loading indicator, the submit buttons and the
    result elements; the text area keeps its text untrimmed, and no timer
    is set. *)
Theorem submission_leaves_controls (f : flow) (net : fetch_outcome)
    (fb : firebase) (w : world (Id f)) :
  let r := submit f net fb w in
  (forall i, i ∉ touched f -> doc (snd r) i = doc w i) /\
  doc (snd r) (textInput f) = doc w (textInput f) /\
  timers (snd r) = timers w.
Proof.
  intros r; subst r.
  pose proof (submit_frame f net fb w) as Hframe.
  split; [exact Hframe|]. split.
  - apply Hframe. destruct f; unfold touched; cbn; notin.
  - destruct f; unfold_submit; run_prelude.
    all: destruct (isEmpty _); [done|]; destruct (_ <? _)%nat; [done|].
    all: run; destruct net as [e|[] [data|e]]; run; try done.
    all: split_display_here; [|split_store fb]; done.
Qed.

Lemma submission_leaves_controls_witness :
  (Generate.toneSelect ∉ touched generation) /\
  doc (snd (submit generation offline store (fresh gen_page))) Generate.toneSelect
  = gen_page Generate.toneSelect /\
  value (doc (snd (submit generation offline store (fresh gen_page)))
             Generate.promptText) = lit "  Write a short poem ".
Proof.
  assert (Generate.toneSelect ∉ touched generation) as Hi
    by (unfold touched; cbn; notin).
  destruct (submission_leaves_controls generation offline store (fresh gen_page))
    as (Hf & Ht & _).
  split; [exact Hi|]. split; [exact (Hf _ Hi)|].
  exact (f_equal value Ht).
Defined.

(** The character counters *)

Ltac counted_frame :=
  unfold detect_counted, summary_counted, counted in *; cbn [doc snd];
  rewrite ?update_ne by done; try done.

(** X14. In the detection screen, the counter showing the length of the text
    area is established by an [input] event and by a plain text file that
    loads, and once it holds it is kept by a submission, by a copy and its
    delayed reset, by an upload that is refused and by one whose file
    never loads. *)
Theorem detect_counter_tracks_text :
  (forall w : world Detect.id,
     detect_counted (doc (snd (Detect.detectText_input w)))) /\
  (forall (f : file) (w : world Detect.id),
     file_type f = lit "text/plain" ->
     detect_counted (doc (snd (Detect.fileUpload_change (Some f) true w)))) /\
  (forall w : world Detect.id,
     detect_counted (doc w) ->
     (forall net fb, detect_counted (doc (snd (Detect.detectBtn_click net fb w)))) /\
     (forall clip, detect_counted (doc (snd (Detect.copyBtn_click clip w)))) /\
     detect_counted (doc (snd (Detect.copyBtn_reset w))) /\
     (forall selected,
        (forall f, selected = Some f -> file_type f <> lit "text/plain") ->
        forall loaded,
          detect_counted (doc (snd (Detect.fileUpload_change selected loaded w)))) /\
     (forall f, detect_counted
                  (doc (snd (Detect.fileUpload_change (Some f) false w))))).
Proof.
  split; [|split].
  - intros w. unfold Detect.detectText_input; run_prelude.
    unfold detect_counted, counted; cbn [doc].
    rewrite update_eq. rewrite update_ne by done. reflexivity.
  - intros f w Ht. apply jsstring_eqb_eq in Ht.
    unfold Detect.fileUpload_change, Detect.reader_onload. rewrite Ht.
    run_prelude. unfold detect_counted, counted; cbn [doc].
    rewrite update_eq. rewrite ?update_ne by done. rewrite update_eq.
    reflexivity.
  - intros w Hw. split; [|split; [|split; [|split]]].
    + intros net fb.
      pose proof (submit_frame detection net fb w) as Hf.
      cbn [submit] in Hf. unfold detect_counted in *.
      rewrite !Hf by (unfold touched; cbn; notin). exact Hw.
    + intros [|]; unfold Detect.copyBtn_click; run_prelude; counted_frame.
    + unfold Detect.copyBtn_reset; run_prelude; counted_frame.
    + intros [f|] Hsel loaded; unfold Detect.fileUpload_change.
      * destruct (jsstring_eqb _ _) eqn:Ht;
          [apply jsstring_eqb_eq in Ht; by destruct (Hsel f eq_refl)|].
        run_prelude; counted_frame.
      * run_prelude; counted_frame.
    + intros f. unfold Detect.fileUpload_change.
      destruct (jsstring_eqb _ _); run_prelude; counted_frame.
Qed.

Lemma detect_counter_tracks_text_witness :
  let w := snd (Detect.detectText_input (fresh det_page)) in
  detect_counted (doc w) /\
  textContent (doc w Detect.charCount) = lit "501" /\
  detect_counted (doc (snd (Detect.detectBtn_click offline store w))) /\
  file_type long_file = lit "text/plain" /\
  detect_counted (doc (snd (Detect.fileUpload_change (Some long_file) true w))).
Proof.
  cbv zeta.
  destruct detect_counter_tracks_text as (Hin & Hup & Hkeep).
  pose proof (Hin (fresh det_page)) as Hw.
  split; [exact Hw|]. split; [by vm_compute|].
  split; [exact (proj1 (Hkeep _ Hw) offline store)|].
  split; [reflexivity|]. exact (Hup long_file _ eq_refl).
Defined.

(** X15. In the summarization screen, the counter showing the length of the
    text area is established by an [input] event and kept by a
    submission, by a copy and by its delayed reset. *)
Theorem summary_counter_tracks_text :
  (forall w : world Summarize.id,
     summary_counted (doc (snd (Summarize.summaryText_input w)))) /\
  (forall w : world Summarize.id,
     summary_counted (doc w) ->
     (forall net fb,
        summary_counted (doc (snd (Summarize.summarizeBtn_click net fb w)))) /\
     (forall clip, summary_counted (doc (snd (Summarize.copyBtn_click clip w)))) /\
     summary_counted (doc (snd (Summarize.copyBtn_reset w)))).
Proof.
  split.
  - intros w. unfold Summarize.summaryText_input; run_prelude.
    unfold summary_counted, counted; cbn [doc].
    rewrite update_eq. rewrite update_ne by done. reflexivity.
  - intros w Hw. split; [|split].
    + intros net fb.
      pose proof (submit_frame summarization net fb w) as Hf.
      cbn [submit] in Hf. unfold summary_counted in *.
      rewrite !Hf by (unfold touched; cbn; notin). exact Hw.
    + intros [|]; unfold Summarize.copyBtn_click; run_prelude; counted_frame.
    + unfold Summarize.copyBtn_reset; run_prelude; counted_frame.
Qed.

Lemma summary_counter_tracks_text_witness :
  let w := snd (Summarize.summaryText_input (fresh sum_page)) in
  summary_counted (doc w) /\
  textContent (doc w Summarize.charCount) = lit "120" /\
  summary_counted (doc (snd (Summarize.summarizeBtn_click offline store w))).
Proof.
  cbv zeta.
  destruct summary_counter_tracks_text as (Hin & Hkeep).
  pose proof (Hin (fresh sum_page)) as Hw.
  split; [exact Hw|]. split; [by vm_compute|].
  exact (proj1 (Hkeep _ Hw) offline store).
Defined.

(** Uploading a file *)

(** X16. In the detection screen, a [change] event with no file selected
    reads nothing and shows [Please upload a .txt file], changing no
    other element. *)
Theorem upload_without_file (loaded : bool) (w : world Detect.id) :
  let r := Detect.fileUpload_change None loaded w in
  fst r = inr tt /\
  trace (snd r) = trace w /\
  textContent (doc (snd r) Detect.errorMsg) = lit "Please upload a .txt file" /\
  "show" ∈ classList (doc (snd r) Detect.errorMsg) /\
  forall i, i <> Detect.errorMsg -> doc (snd r) i = doc w i.
Proof.
  cbv zeta. unfold Detect.fileUpload_change; run_prelude.
  split; [done|]. split; [done|]. split; [by rewrite update_eq|].
  split; [rewrite update_eq; apply classList_add_in|].
  intros i Hi. by rewrite !update_ne by done.
Qed.

Lemma upload_loaded (f : file) (w : world Detect.id) :
  file_type f = lit "text/plain" ->
  let w1 := snd (Detect.fileUpload_change (Some f) true w) in
  trace w1 = trace w ++ [ReadAsText f] /\
  value (doc w1 Detect.detectText) = normalizeNewlines (file_text f).
Proof.
  intros Ht. cbv zeta. unfold Detect.fileUpload_change.
  apply jsstring_eqb_eq in Ht. rewrite Ht.
  unfold Detect.reader_onload; run_prelude.
  split; [done|]. cbn [doc]. by rewrite ?update_ne, ?update_eq by done.
Qed.

(** X17. In the detection screen, after a plain text file has loaded, a click
    on the detect button sends the file's text, line ends normalised and
    trimmed, provided it has 50 units; the file read and this request are
    the first two calls and no other request follows. *)
Theorem upload_then_detect (f : file) (net : fetch_outcome) (fb : firebase)
    (w : world Detect.id) :
  file_type f = lit "text/plain" ->
  let text := trim (normalizeNewlines (file_text f)) in
  (50 <= length text)%nat ->
  let w1 := snd (Detect.fileUpload_change (Some f) true w) in
  exists rest,
    trace (snd (Detect.detectBtn_click net fb w1))
    = trace w ++
      ReadAsText f ::
      Fetch Detect.endpoint
        (Request (lit "POST") [(lit "Content-Type", lit "application/json")]
           (JSON_stringify (VObject [(lit "text", VString text)])))
      :: rest /\
    forall x, x ∈ rest -> is_fetch x = false.
Proof.
  intros Ht text Hlen w1.
  destruct (upload_loaded f w Ht) as [Htr1 Hv].
  fold w1 in Htr1, Hv.
  assert (submitted detection w1 = text) as Hsub
    by (subst w1 text; unfold submitted; f_equal; exact Hv).
  destruct (submit_request detection net fb w1) as (rest & Hreq & Hno).
  { rewrite Hsub. exact Hlen. }
  exists rest. split; [|intros x Hx; rewrite Forall_forall in Hno; exact (Hno x Hx)].
  unfold submitted in Hsub.
  cbn [Id submit endpoint payload textInput] in Hreq, Hsub.
  rewrite Hsub, Htr1 in Hreq. rewrite <- app_assoc in Hreq. exact Hreq.
Qed.

Lemma upload_then_detect_witness :
  file_type long_file = lit "text/plain" /\
  (50 <= length (trim (normalizeNewlines (file_text long_file))))%nat /\
  exists rest,
    trace (snd (Detect.detectBtn_click offline store
                  (snd (Detect.fileUpload_change (Some long_file) true
                          (fresh det_page)))))
    = [] ++
      ReadAsText long_file ::
      Fetch Detect.endpoint
        (Request (lit "POST") [(lit "Content-Type", lit "application/json")]
           (JSON_stringify
              (VObject [(lit "text",
                         VString (trim (normalizeNewlines (file_text long_file))))])))
      :: rest /\
    forall x, x ∈ rest -> is_fetch x = false.
Proof.
  assert (50 <= length (trim (normalizeNewlines (file_text long_file))))%nat
    as Hlen by long_enough.
  split; [reflexivity|]. split; [exact Hlen|].
  exact (upload_then_detect long_file offline store (fresh det_page) eq_refl Hlen).
Defined.

(** Copying twice *)

Lemma timer_due (x ms : nat) : (x <= ms)%nat -> Is_true (x <=? ms)%nat.
Proof. intros H. by apply Is_true_true, Nat.leb_le. Qed.

Lemma timer_not_due (x ms : nat) : (ms < x)%nat -> ~ Is_true (x <=? ms)%nat.
Proof. intros H Hd. apply Is_true_true, Nat.leb_le in Hd. lia. Qed.

Lemma timer_later (x ms : nat) :
  (ms < x)%nat -> Is_true (negb (x <=? ms)%nat).
Proof. intros H. by apply Is_true_true, negb_true_iff, Nat.leb_gt. Qed.

(** X18. In every flow, a second successful copy made [t] < 2000 ms after the
    first shows the copied label again, and the timer of the first copy
    resets the button 2000 - [t] ms later, before the second copy's own
    two seconds are over. *)
Theorem second_copy_is_cut_short (f : flow) (t : nat) (w : world (Id f)) :
  timers w = [] ->
  (t < 2000)%nat ->
  let click w := snd (copyBtn_click f ClipboardFulfilled w) in
  let wait ms w := elapse (copyBtn_reset f) ms w in
  let w2 := click (wait t (click w)) in
  textContent (doc w2 (copyBtn f)) = copied_label /\
  textContent (doc (wait (2000 - t)%nat w2) (copyBtn f)) = idle_label f /\
  ("copied" ∉ classList (doc (wait (2000 - t)%nat w2) (copyBtn f))).
Proof.
  intros Hnil Ht. cbv beta zeta.
  assert (elapse (copyBtn_reset f) t (snd (copyBtn_click f ClipboardFulfilled w))
          = World (doc (snd (copyBtn_click f ClipboardFulfilled w)))
              (trace (snd (copyBtn_click f ClipboardFulfilled w)))
              [(2000 - t)%nat]) as Hwait.
  { rewrite copyBtn_click_eq. unfold elapse. cbn [snd doc trace timers].
    rewrite Hnil. cbn [app].
    rewrite filter_cons_False by (apply timer_not_due; lia).
    rewrite filter_cons_True by (apply timer_later; lia).
    rewrite !filter_nil. reflexivity. }
  rewrite Hwait. rewrite !copyBtn_click_eq. cbn [snd doc trace timers app].
  split; [by rewrite !update_eq|].
  unfold elapse. cbn [doc trace timers].
  rewrite filter_cons_True by (apply timer_due; lia).
  match goal with
  | |- context [fold_left ?g (?a :: ?l) ?W] =>
      destruct (resets_fold f (a :: l) W) as (_ & _ & _ & Hc)
  end.
  cbv zeta in Hc. rewrite Hc. rewrite reset_button_eq.
  split; [done|]. apply classList_remove_out.
Qed.

Lemma second_copy_is_cut_short_witness :
  timers (fresh gen_shown) = [] /\
  (1500 < 2000)%nat /\
  let click w := snd (copyBtn_click generation ClipboardFulfilled w) in
  let wait ms w := elapse (copyBtn_reset generation) ms w in
  let w2 := click (wait 1500%nat (click (fresh gen_shown))) in
  textContent (doc w2 Generate.copyBtn) = copied_label /\
  textContent (doc (wait 500%nat w2) Generate.copyBtn) = lit "Copy Text".
Proof.
  assert (1500 < 2000)%nat as Ht by lia.
  split; [reflexivity|]. split; [exact Ht|].
  destruct (second_copy_is_cut_short generation 1500 (fresh gen_shown) eq_refl Ht)
    as (Hc & Hi & _).
  split; [exact Hc|exact Hi].
Defined.

(** ** When the write fails *)




